(** * fmripost_aroma.interfaces.reportlets

    A shallow embedding of the reportlet interfaces of fMRIPost-AROMA
    (src/fmripost_aroma/interfaces/reportlets.py) and the properties of
    their contracts: [SummaryInterface], [SubjectSummary], [AboutSummary],
    [MELODICRPT] and [ICAAROMARPT].

    Python values are modelled as follows.
    - [str] is [string]; every character the code inspects (the naming
      pattern, the slice [[5:]], the extension rewrite, the sort keys) is
      ASCII, so a character of the model is one byte.
    - A raised exception is the [Raise] branch of [res]; [x ← e; k] is the
      sequencing of statements that may raise.
    - An input trait that may be left unset is a [trait]; [Undefined] is
      the value nipype gives to such a trait, and [isdefined] is a match
      on [Defined].
    - A [dict] from names to values is a [gmap string _].
    - The file system, the log and the calls made to the plotting routine
      are fields of [world], threaded through every method that has an
      effect. *)

From Stdlib Require Import Ascii String DecimalString ZArith Sorting.Sorted.
From Stdlib Require OrderedTypeEx.
From stdpp Require Import base option list sorting gmap strings.

Set Default Proof Using "Type".

(** ** Exceptions and traits *)

Inductive exn : Type :=
  | AttributeError
  | TypeError
  | IndexError
  | KeyError
  | ValueError
  | NotImplementedError
  | OSError
  | ExternalError (what : string).

Inductive res (A : Type) : Type :=
  | Ok (a : A)
  | Raise (e : exn).
Arguments Ok {A} a.
Arguments Raise {A} e.

#[global] Instance res_bind : MBind res := λ A B k m,
  match m with
  | Ok a => k a
  | Raise e => Raise e
  end.

Fixpoint res_mapM {A B : Type} (f : A → res B) (l : list A) : res (list B) :=
  match l with
  | [] => Ok []
  | a :: l' => b ← f a; bs ← res_mapM f l'; Ok (b :: bs)
  end.

Definition raised {A : Type} (m : res A) : bool :=
  match m with Ok _ => false | Raise _ => true end.

Inductive trait (A : Type) : Type :=
  | Undefined
  | Defined (a : A).
Arguments Undefined {A}.
Arguments Defined {A} a.

(** ** The characters the templates write as escapes *)

Definition TAB : string := String (ascii_of_nat 9) EmptyString.
Definition NL : string := String (ascii_of_nat 10) EmptyString.
Definition DQ : string := String (ascii_of_nat 34) EmptyString.

(** ** The [str] methods the module uses *)

Module Py.

(** [sep.join(parts)] *)
Fixpoint join (sep : string) (parts : list string) : string :=
  match parts with
  | [] => ""
  | [p] => p
  | p :: rest => p +:+ sep +:+ join sep rest
  end.

(** [s.startswith(p)] *)
Fixpoint startswith (s p : string) {struct p} : bool :=
  match p, s with
  | EmptyString, _ => true
  | String _ _, EmptyString => false
  | String a p', String b s' => if Ascii.eqb a b then startswith s' p' else false
  end.

(** [s[n:]] for [0 <= n] *)
Fixpoint slice_from (n : nat) (s : string) : string :=
  match n, s with
  | O, _ => s
  | S _, EmptyString => EmptyString
  | S n', String _ s' => slice_from n' s'
  end.

(** [s.replace(old, new)] for a non-empty [old]: the occurrences of
    [old] are found from the left and do not overlap.  [skip] counts the
    characters of an occurrence that still have to be dropped. *)
Fixpoint replace_go (old new : string) (skip : nat) (s : string) : string :=
  match s with
  | EmptyString => EmptyString
  | String c s' =>
      match skip with
      | S k => replace_go old new k s'
      | O =>
          if startswith s old
          then new +:+ replace_go old new (String.length old - 1) s'
          else String c (replace_go old new 0 s')
      end
  end.

Definition replace (s old new : string) : string := replace_go old new 0 s.

(** [s.endswith(suffix)] *)
Definition endswith (s suffix : string) : bool :=
  (String.length suffix <=? String.length s)
  && String.eqb (slice_from (String.length s - String.length suffix) s) suffix.

(** [sub in s] *)
Fixpoint contains (s sub : string) : bool :=
  startswith s sub ||
  match s with
  | EmptyString => false
  | String _ s' => contains s' sub
  end.

(** [format(n, "d")] for a non-negative integer *)
Definition decimal (n : nat) : string := NilEmpty.string_of_uint (Nat.to_uint n).

(** The values handed to [str.format] and to f-strings. *)
Inductive value : Type :=
  | VStr (s : string)
  | VInt (n : nat)
  | VUndefined.

Definition of_trait (t : trait string) : value :=
  match t with Undefined => VUndefined | Defined s => VStr s end.

(** [format(v, spec)] for the two format specifications the templates
    contain: the empty one and [d]. *)
Definition format_value (v : value) (spec : string) : res string :=
  match v with
  | VStr s => if String.eqb spec "" then Ok s else Raise ValueError
  | VInt n =>
      if String.eqb spec "" || String.eqb spec "d" then Ok (decimal n)
      else Raise ValueError
  | VUndefined => if String.eqb spec "" then Ok "<undefined>" else Raise TypeError
  end.

Fixpoint kw_lookup (kw : list (string * value)) (name : string) : res value :=
  match kw with
  | [] => Raise KeyError
  | (k, v) :: kw' => if String.eqb k name then Ok v else kw_lookup kw' name
  end.

(** A replacement field [name] or [name:spec], split at its first colon. *)
Fixpoint split_field (f : string) : string * string :=
  match f with
  | EmptyString => (EmptyString, EmptyString)
  | String c f' =>
      if Ascii.eqb c ":" then (EmptyString, f')
      else let '(n, sp) := split_field f' in (String c n, sp)
  end.

Definition format_field (kw : list (string * value)) (f : string) : res string :=
  let '(name, spec) := split_field f in
  v ← kw_lookup kw name;
  format_value v spec.

(** [template.format( **kw )].  [field] is [None] in literal text and
    holds the text read so far inside a replacement field. *)
Fixpoint format_go (kw : list (string * value)) (field : option string)
    (t : string) : res string :=
  match t with
  | EmptyString =>
      match field with None => Ok EmptyString | Some _ => Raise ValueError end
  | String c t' =>
      match field with
      | Some f =>
          if Ascii.eqb c "}" then
            v ← format_field kw f;
            rest ← format_go kw None t';
            Ok (v +:+ rest)
          else format_go kw (Some (f +:+ String c EmptyString)) t'
      | None =>
          if Ascii.eqb c "{" then
            match t' with
            | String "{" t'' => rest ← format_go kw None t''; Ok (String "{" rest)
            | _ => format_go kw (Some EmptyString) t'
            end
          else if Ascii.eqb c "}" then
            match t' with
            | String "}" t'' => rest ← format_go kw None t''; Ok (String "}" rest)
            | _ => Raise ValueError
            end
          else rest ← format_go kw None t'; Ok (String c rest)
      end
  end.

Definition format (template : string) (kw : list (string * value)) : res string :=
  format_go kw None template.

End Py.

(** ** [os.path] on a POSIX system *)

Module Posix.

Definition isabs (p : string) : bool := Py.startswith p "/".

Fixpoint last_char (s : string) : option ascii :=
  match s with
  | EmptyString => None
  | String c EmptyString => Some c
  | String _ s' => last_char s'
  end.

Definition ends_with_sep (p : string) : bool :=
  match last_char p with
  | Some c => Ascii.eqb c "/"
  | None => false
  end.

(** [os.path.join(a, b)] *)
Definition join (a b : string) : string :=
  if Py.startswith b "/" then b
  else if String.eqb a "" || ends_with_sep a then a +:+ b
  else a +:+ "/" +:+ b.

(** [path.split("/")] *)
Fixpoint split_sep (p : string) : list string :=
  match p with
  | EmptyString => [EmptyString]
  | String c p' =>
      if Ascii.eqb c "/" then EmptyString :: split_sep p'
      else match split_sep p' with
           | [] => [String c EmptyString]
           | comp :: comps => String c comp :: comps
           end
  end.

(** The loop of [normpath] over the components; [new_comps] is the list
    the loop appends to and pops from. *)
Fixpoint norm_comps (initial_slashes : nat) (new_comps comps : list string)
    : list string :=
  match comps with
  | [] => new_comps
  | comp :: rest =>
      if String.eqb comp "" || String.eqb comp "." then
        norm_comps initial_slashes new_comps rest
      else if negb (String.eqb comp "..")
              || (Nat.eqb initial_slashes 0 && bool_decide (new_comps = []))
              || bool_decide (last new_comps = Some "..") then
        norm_comps initial_slashes (new_comps ++ [comp]) rest
      else
        norm_comps initial_slashes (removelast new_comps) rest
  end.

(** [os.path.normpath(path)] *)
Definition normpath (path : string) : string :=
  if String.eqb path "" then "."
  else
    let initial_slashes :=
      if Py.startswith path "/" then
        if Py.startswith path "//" && negb (Py.startswith path "///")
        then 2 else 1
      else 0 in
    let comps := norm_comps initial_slashes [] (split_sep path) in
    let path' :=
      match initial_slashes with
      | 0 => Py.join "/" comps
      | 1 => "/" +:+ Py.join "/" comps
      | _ => "//" +:+ Py.join "/" comps
      end in
    if String.eqb path' "" then "." else path'.

(** [os.path.abspath(path)] in a process whose current directory is
    [getcwd]. *)
Definition abspath (getcwd path : string) : string :=
  normpath (if isabs path then path else join getcwd path).

End Posix.

(** ** [re]: the backtracking matcher, for the operators the naming
    pattern uses *)

Module Re.

Inductive regex : Type :=
  | Bol                                       (* ^ *)
  | Lit (c : ascii)                           (* a literal character *)
  | Dot                                       (* . *)
  | Class (ranges : list (ascii * ascii))     (* [a-zA-Z0-9] *)
  | Seq (r1 r2 : regex)
  | Opt (r : regex)                           (* r?, greedy *)
  | Star (r : regex)                          (* r*, greedy *)
  | Plus (r : regex)                          (* r+, greedy *)
  | Group (name : option string) (r : regex). (* (r) and (?P<name>r) *)

(** The text of the named groups that took part in the match, most
    recent first. *)
Definition groups : Type := list (string * string).

Record match_object : Type := MatchObject {
  m_start : nat;
  m_end : nat;
  m_groups : groups
}.

Definition in_class (ranges : list (ascii * ascii)) (c : ascii) : bool :=
  existsb (fun '(lo, hi) => Ascii.leb lo c && Ascii.leb c hi) ranges.

Fixpoint take (n : nat) (s : string) : string :=
  match n, s with
  | S n', String c s' => String c (take n' s')
  | _, _ => EmptyString
  end.

(** [run r pos s gs k]: match [r] against [s], the text from offset
    [pos] on, then continue with [k]; alternatives are tried in the order
    of the [re] module (a greedy operator first tries to match more) and
    the first one for which [k] succeeds wins. *)
Fixpoint run (r : regex) (pos : nat) (s : string) (gs : groups)
    (k : nat → string → groups → option match_object) : option match_object :=
  let loop (r1 : regex) :=
    fix loop (fuel pos : nat) (s : string) (gs : groups) : option match_object :=
      match fuel with
      | O => k pos s gs
      | S fuel' =>
          match run r1 pos s gs
                  (fun pos' s' gs' =>
                     if pos <? pos' then loop fuel' pos' s' gs' else None) with
          | Some m => Some m
          | None => k pos s gs
          end
      end in
  match r with
  | Bol => if pos =? 0 then k pos s gs else None
  | Lit c =>
      match s with
      | String a s' => if Ascii.eqb a c then k (S pos) s' gs else None
      | EmptyString => None
      end
  | Dot =>
      match s with
      | String a s' => if Ascii.eqb a (ascii_of_nat 10) then None else k (S pos) s' gs
      | EmptyString => None
      end
  | Class ranges =>
      match s with
      | String a s' => if in_class ranges a then k (S pos) s' gs else None
      | EmptyString => None
      end
  | Seq r1 r2 => run r1 pos s gs (fun pos' s' gs' => run r2 pos' s' gs' k)
  | Opt r1 =>
      match run r1 pos s gs k with
      | Some m => Some m
      | None => k pos s gs
      end
  | Star r1 => loop r1 (String.length s) pos s gs
  | Plus r1 =>
      run r1 pos s gs (fun pos' s' gs' => loop r1 (String.length s') pos' s' gs')
  | Group name r1 =>
      run r1 pos s gs
        (fun pos' s' gs' =>
           k pos' s' match name with
                     | Some n => (n, take (pos' - pos) s) :: gs'
                     | None => gs'
                     end)
  end.

(** [pattern.search(text)]: the first offset at which the pattern
    matches. *)
Fixpoint search_from (r : regex) (pos : nat) (s : string) : option match_object :=
  match run r pos s [] (fun pos' _ gs => Some (MatchObject pos pos' gs)) with
  | Some m => Some m
  | None =>
      match s with
      | EmptyString => None
      | String _ s' => search_from r (S pos) s'
      end
  end.

Definition search (r : regex) (text : string) : option match_object :=
  search_from r 0 text.

(** [m.groupdict()[name]] for a group [name] of the pattern: [None] when
    the group took no part in the match. *)
Fixpoint group_lookup (gs : groups) (name : string) : option string :=
  match gs with
  | [] => None
  | (n, v) :: gs' => if String.eqb n name then Some v else group_lookup gs' name
  end.

Definition groupdict (m : match_object) (name : string) : option string :=
  group_lookup (m_groups m) name.

(** A literal word of the pattern. *)
Fixpoint word (s : string) (tail : regex) : regex :=
  match s with
  | EmptyString => tail
  | String c s' => Seq (Lit c) (word s' tail)
  end.

End Re.

(** ** [collections.Counter] and [sorted] *)

(** [Counter(labels)]: how many times each element occurs. *)
Definition Counter (labels : list string) : gmap string nat :=
  foldl (fun counts x => <[x := S (default 0 (counts !! x))]> counts) ∅ labels.

(** The order of Python on the tuples [(task_id, n_runs)]: by the first
    component, the code points of the strings compared from the left,
    then by the second. *)
Definition item_le (a b : string * nat) : Prop :=
  match String.compare a.1 b.1 with
  | Lt => True
  | Eq => a.2 ≤ b.2
  | Gt => False
  end.

#[global] Instance item_le_dec a b : Decision (item_le a b).
Proof. unfold item_le. destruct (String.compare a.1 b.1); apply _. Defined.

(** [sorted(counts.items())] *)
Definition sorted_items (counts : gmap string nat) : list (string * nat) :=
  merge_sort item_le (map_to_list counts).

(** ** [time.strftime] *)

Record struct_time : Type := StructTime {
  tm_year : nat;
  tm_mon : nat;
  tm_mday : nat;
  tm_hour : nat;
  tm_min : nat;
  tm_sec : nat;
  tm_gmtoff : Z      (* seconds east of UTC *)
}.

Module Time.

Fixpoint zeros (n : nat) : string :=
  match n with O => EmptyString | S n' => String "0" (zeros n') end.

(** A decimal number padded with zeros to [width] digits. *)
Definition padded (width n : nat) : string :=
  let d := Py.decimal n in
  zeros (width - String.length d) +:+ d.

(** The text a conversion specification [%c] stands for. *)
Definition conversion (c : ascii) (t : struct_time) : string :=
  if Ascii.eqb c "Y" then Py.decimal (tm_year t)
  else if Ascii.eqb c "m" then padded 2 (tm_mon t)
  else if Ascii.eqb c "d" then padded 2 (tm_mday t)
  else if Ascii.eqb c "H" then padded 2 (tm_hour t)
  else if Ascii.eqb c "M" then padded 2 (tm_min t)
  else if Ascii.eqb c "S" then padded 2 (tm_sec t)
  else if Ascii.eqb c "z" then
    let off := Z.abs_nat (tm_gmtoff t) in
    (if (tm_gmtoff t <? 0)%Z then "-" else "+")
      +:+ padded 2 (off / 3600) +:+ padded 2 ((off / 60) mod 60)
  else if Ascii.eqb c "%" then "%"
  else String "%" (String c EmptyString).

(** [time.strftime(format, t)] for the conversions above. *)
Fixpoint strftime (format : string) (t : struct_time) : string :=
  match format with
  | EmptyString => EmptyString
  | String "%" (String c rest) => conversion c t +:+ strftime rest t
  | String c rest => String c (strftime rest t)
  end.

End Time.

(** ** The templates *)

Definition SUBJECT_TEMPLATE : string :=
  TAB +:+ "<ul class=" +:+ DQ +:+ "elem-desc" +:+ DQ +:+ ">" +:+ NL +:+
  TAB +:+ TAB +:+ "<li>Subject ID: {subject_id}</li>" +:+ NL +:+
  TAB +:+ TAB +:+ "<li>Structural images: {n_t1s:d} T1-weighted {t2w}</li>" +:+ NL +:+
  TAB +:+ TAB +:+ "<li>Functional series: {n_bold:d}</li>" +:+ NL +:+
  "{tasks}" +:+ NL +:+
  TAB +:+ TAB +:+ "<li>Standard output spaces: {std_spaces}</li>" +:+ NL +:+
  TAB +:+ TAB +:+ "<li>Non-standard output spaces: {nstd_spaces}</li>" +:+ NL +:+
  TAB +:+ TAB +:+ "<li>FreeSurfer reconstruction: {freesurfer_status}</li>" +:+ NL +:+
  TAB +:+ "</ul>" +:+ NL.

Definition ABOUT_TEMPLATE : string :=
  TAB +:+ "<ul>" +:+ NL +:+
  TAB +:+ TAB +:+ "<li>fMRIPrep version: {version}</li>" +:+ NL +:+
  TAB +:+ TAB +:+ "<li>fMRIPrep command: <code>{command}</code></li>" +:+ NL +:+
  TAB +:+ TAB +:+ "<li>Date preprocessed: {date}</li>" +:+ NL +:+
  TAB +:+ "</ul>" +:+ NL +:+
  "</div>" +:+ NL.

(** [BIDS_NAME], the pattern of [SubjectSummary._generate_segment]. *)

Definition alnum : Re.regex :=
  Re.Class [("a", "z"); ("A", "Z"); ("0", "9")]%char.

(** [(_(?P<name>key-[a-zA-Z0-9]+))?] *)
Definition entity (name key : string) : Re.regex :=
  Re.Opt (Re.Group None
            (Re.Seq (Re.Lit "_")
                    (Re.Group (Some name) (Re.word key (Re.Plus alnum))))).

Definition BIDS_NAME : Re.regex :=
  Re.Seq Re.Bol
    (Re.Seq (Re.Opt (Re.Group None (Re.Seq (Re.Star Re.Dot) (Re.Lit "/"))))
    (Re.Seq (Re.Group (Some "subject_id") (Re.word "sub-" (Re.Plus alnum)))
    (Re.Seq (entity "session_id" "ses-")
    (Re.Seq (entity "task_id" "task-")
    (Re.Seq (entity "acq_id" "acq-")
    (Re.Seq (entity "rec_id" "rec-")
            (entity "run_id" "run-"))))))).

(** ** The world the interfaces run in *)

Record filesystem : Type := FileSystem {
  files : gmap string string;     (* regular files and their contents *)
  dirs : gset string;             (* directories *)
  writable : string → bool        (* the paths [open(path, "w")] accepts *)
}.

(** [os.path.exists(path)] *)
Definition path_exists (fs : filesystem) (path : string) : bool :=
  bool_decide (is_Some (files fs !! path)) || bool_decide (path ∈ dirs fs).

(** [with open(path, "w") as fobj: fobj.write(text)] *)
Definition write_file (fs : filesystem) (path text : string) : res filesystem :=
  if writable fs path
  then Ok (FileSystem (<[path := text]> (files fs)) (dirs fs) (writable fs))
  else Raise OSError.

(** A [float], which the module only hands on: [mantissa * 2 ^ exponent]. *)
Record pyfloat : Type := Float { mantissa : Z; exponent : Z }.

(** [traits.Enum("auto", True, False)] *)
Inductive compress_flag : Type := CompressAuto | CompressTrue | CompressFalse.

(** The keyword arguments of [plot_melodic_components]; an argument that
    a call leaves out is [None]. *)
Record plot_args : Type := PlotArgs {
  pa_melodic_dir : trait string;
  pa_in_file : string;
  pa_tr : option (trait pyfloat);
  pa_out_file : string;
  pa_compress : compress_flag;
  pa_report_mask : trait string;
  pa_noise_components_file : option string
}.

Inductive event : Type :=
  | LogInfo (msg : string)
  | LogWarning (msg : string)
  | OutputsAggregated
  | PlotCalled (args : plot_args).

Record world : Type := World {
  fs : filesystem;
  getcwd : string;                (* [os.getcwd()] *)
  localtime : struct_time;        (* the wall clock, in local time *)
  trace : list event              (* what happened so far, oldest first *)
}.

Record runtime : Type := Runtime { cwd : string }.

(** The world with another file system, with more events in its trace,
    and once [text] has been written to [path]. *)
Definition with_fs (w : world) (fs' : filesystem) : world :=
  World fs' (getcwd w) (localtime w) (trace w).

Definition with_events (w : world) (events : list event) : world :=
  World (fs w) (getcwd w) (localtime w) (trace w ++ events).

Definition after_write (w : world) (path text : string) : world :=
  World (FileSystem (<[path := text]> (files (fs w))) (dirs (fs w)) (writable (fs w)))
        (getcwd w) (localtime w) (trace w).

(** *** Methods with effects

    A method runs in a state [S] (the object and the world); when it
    raises, the state reached at that point is kept. *)

Definition M (S A : Type) : Type := S → res A * S.

#[global] Instance M_ret {S} : MRet (M S) := λ A a s, (Ok a, s).
#[global] Instance M_bind {S} : MBind (M S) := λ A B k m s,
  match m s with
  | (Ok a, s') => k a s'
  | (Raise e, s') => (Raise e, s')
  end.

Definition raise {S A} (e : exn) : M S A := λ s, (Raise e, s).
Definition lift {S A} (r : res A) : M S A := λ s, (r, s).

Section object_state.
Context {Self : Type}.

Definition get_self : M (Self * world) Self := λ s, (Ok s.1, s).
Definition set_self (f : Self → Self) : M (Self * world) unit :=
  λ s, (Ok tt, (f s.1, s.2)).
Definition get_world : M (Self * world) world := λ s, (Ok s.2, s).

Definition emit (e : event) : M (Self * world) unit :=
  λ s, (Ok tt, (s.1, with_events s.2 [e])).

(** Run a step that may change the file system and may raise; what it
    did to the file system before it raised stays done. *)
Definition on_fs {A} (f : filesystem → res A * filesystem) : M (Self * world) A :=
  λ s, let '(r, fs') := f (fs s.2) in (r, (s.1, with_fs s.2 fs')).

Definition open_write (path text : string) : M (Self * world) unit :=
  on_fs (fun fs0 =>
           match write_file fs0 path text with
           | Ok fs' => (Ok tt, fs')
           | Raise e => (Raise e, fs0)
           end).
End object_state.

(** *** The collaborators outside the module *)

Record MELODIC_inputs : Type := MELODICInputs {
  mi_out_dir : trait string;
  mi_out_report : string;         (* default [melodic_reportlet.svg] *)
  mi_in_files : list string;      (* as passed; nipype keeps [[]] as undefined *)
  mi_tr_sec : trait pyfloat;
  mi_compress_report : compress_flag;
  mi_report_mask : trait string
}.

Record ICA_AROMA_inputs : Type := ICAAROMAInputs {
  ai_melodic_dir : trait string;
  ai_in_file : string;
  ai_out_report : string;         (* default [ica_aroma_reportlet.svg] *)
  ai_compress_report : compress_flag;
  ai_report_mask : trait string
}.

(** The outputs [aggregate_outputs] collects for the classification tool. *)
Record ICA_AROMA_outputs : Type := ICAAROMAOutputs {
  ao_out_dir : trait string;
  ao_other : gmap string string
}.

Class Externals : Type := {
  (** [ReconAll(subjects_dir, subject_id, T1_files, flags).cmdline] of
      smriprep *)
  ReconAll_cmdline :
    filesystem → string → string → list string → string → res string;
  (** [niworkflows.viz.utils.plot_melodic_components] *)
  plot_melodic_components : plot_args → filesystem → res unit * filesystem;
  (** [fsl.MELODIC._post_run_hook] and [fsl.MELODIC._list_outputs] *)
  MELODIC_post_run_hook : runtime → filesystem → res runtime * filesystem;
  MELODIC_list_outputs : MELODIC_inputs → res (gmap string string);
  (** [fsl.ICA_AROMA]: [aggregate_outputs] and the post-run hook of the
      tool itself *)
  ICA_AROMA_aggregate_outputs :
    ICA_AROMA_inputs → runtime → filesystem → res ICA_AROMA_outputs;
  ICA_AROMA_post_run_hook : runtime → filesystem → res runtime * filesystem
}.

(** ** SummaryInterface *)

Module SummaryInterface.

(** A [SimpleInterface]: its inputs and the [_results] dictionary. *)
Record obj (Inputs : Type) : Type := Obj {
  inputs : Inputs;
  _results : gmap string string
}.
Arguments Obj {Inputs} _ _.
Arguments inputs {Inputs} _.
Arguments _results {Inputs} _.

Definition set_result {Inputs} (key value : string) (self : obj Inputs) : obj Inputs :=
  Obj (inputs self) (<[key := value]> (_results self)).

(** The rendering step every subclass supplies. *)
Class Segment (Inputs : Type) : Type :=
  _generate_segment : obj Inputs → world → res string.

Definition _run_interface {Inputs} `{!Segment Inputs} (rt : runtime)
    : M (obj Inputs * world) runtime :=
  self ← get_self;
  w ← get_world;
  segment ← lift (_generate_segment self w);
  let fname := Posix.join (cwd rt) "report.html" in
  open_write fname segment;;
  set_self (set_result "out_report" fname);;
  mret rt.

(** The class itself, with no input of its own: its rendering step only
    raises. *)
Inductive no_inputs : Type := NoInputs.

#[global] Instance base_segment : Segment no_inputs :=
  λ _ _, Raise NotImplementedError.

End SummaryInterface.

(** ** SubjectSummary *)

Module SubjectSummary.
Import SummaryInterface.

(** An entry of [bold]: one file, or the files of a split acquisition. *)
Inductive bold_entry : Type :=
  | OneFile (path : string)
  | FileList (paths : list string).

(** [SubjectSummaryInputSpec].  The four list inputs are taken as set by
    the caller; the three others may be left undefined.  An input whose
    [t1w], [std_spaces] or [nstd_spaces] is unset is outside this record:
    on it the code raises [TypeError] ([len] and [join] of an undefined
    trait), so no statement below that assumes or concludes a rendered
    segment speaks of such an input. *)
Record input_spec : Type := Inputs {
  t1w : list string;
  t2w : list string;
  subjects_dir : trait string;
  subject_id : trait string;
  bold : trait (list bold_entry);
  std_spaces : list string;
  nstd_spaces : list string
}.

(** [a + b] for a string [a] and a string trait [b] *)
Definition str_add (a : string) (b : trait string) : res string :=
  match b with
  | Defined s => Ok (a +:+ s)
  | Undefined => Raise TypeError
  end.

(** [s[0] if isinstance(s, list) else s] *)
Definition first_file (s : bold_entry) : res string :=
  match s with
  | OneFile path => Ok path
  | FileList (path :: _) => Ok path
  | FileList [] => Raise IndexError
  end.

(** [BIDS_NAME.search(series).groupdict()["task_id"][5:]] *)
Definition task_of (series : string) : res string :=
  m ← match Re.search BIDS_NAME series with
      | Some m => Ok m
      | None => Raise AttributeError
      end;
  task_id ← match Re.groupdict m "task_id" with
            | Some t => Ok t
            | None => Raise TypeError
            end;
  Ok (Py.slice_from 5 task_id).

Definition TASK_LINE : string :=
  TAB +:+ TAB +:+ TAB +:+ "<li>Task: {task_id} ({n_runs:d} run{s})</li>".

Definition task_line (item : string * nat) : res string :=
  let '(task_id, n_runs) := item in
  Py.format TASK_LINE
    [("task_id", Py.VStr task_id); ("n_runs", Py.VInt n_runs);
     ("s", Py.VStr (if n_runs =? 1 then "" else "s"))].

(** The reconstruction status (lines 278 to 290). *)
Definition freesurfer_status `{Externals} (inp : input_spec) (w : world) : res string :=
  match subjects_dir inp with
  | Undefined => Ok "Not run"
  | Defined dir =>
      sid ← str_add "sub-" (subject_id inp);
      cmdline ← ReconAll_cmdline (fs w) dir sid (t1w inp) "-noskullstrip";
      if Py.startswith cmdline "echo"
      then Ok "Pre-existing directory"
      else Ok "Run by fMRIPrep"
  end.

(** The annotation for the T2-weighted images (lines 292 to 294). *)
Definition t2w_seg (inp : input_spec) : string :=
  match t2w inp with
  | [] => ""
  | _ => "(+ " +:+ Py.decimal (length (t2w inp)) +:+ " T2-weighted)"
  end.

(** The functional series, one file for each (lines 297 and 298). *)
Definition bold_series (inp : input_spec) : res (list string) :=
  res_mapM first_file
    match bold inp with Defined l => l | Undefined => [] end.

(** The runs of each task (lines 300 to 302). *)
Definition task_counts (bold_series : list string) : res (gmap string nat) :=
  labels ← res_mapM task_of bold_series;
  Ok (Counter labels).

(** The list of tasks (lines 304 to 314). *)
Definition tasks_segment (counts : gmap string nat) : res string :=
  if bool_decide (counts = ∅) then Ok ""
  else
    let header := TAB +:+ TAB +:+ "<ul class=" +:+ DQ +:+ "elem-desc" +:+ DQ +:+ ">" in
    let footer := TAB +:+ TAB +:+ "</ul>" in
    lines ← res_mapM task_line (sorted_items counts);
    Ok (Py.join NL ([header] ++ lines ++ [footer])).

Definition _generate_segment `{Externals}
    (self : obj input_spec) (w : world) : res string :=
  let inp := inputs self in
  freesurfer_status ← freesurfer_status inp w;
  bold_series ← bold_series inp;
  counts ← task_counts bold_series;
  tasks ← tasks_segment counts;
  Py.format SUBJECT_TEMPLATE
    [("subject_id", Py.of_trait (subject_id inp));
     ("n_t1s", Py.VInt (length (t1w inp)));
     ("t2w", Py.VStr (t2w_seg inp));
     ("n_bold", Py.VInt (length bold_series));
     ("tasks", Py.VStr tasks);
     ("std_spaces", Py.VStr (Py.join ", " (std_spaces inp)));
     ("nstd_spaces", Py.VStr (Py.join ", " (nstd_spaces inp)));
     ("freesurfer_status", Py.VStr freesurfer_status)].

#[global] Instance segment `{Externals} : Segment input_spec := _generate_segment.

Definition _run_interface `{Externals} (rt : runtime)
    : M (obj input_spec * world) runtime :=
  self ← get_self;
  match subject_id (inputs self) with
  | Defined sid => set_self (set_result "subject_id" sid)
  | Undefined => mret tt
  end;;
  SummaryInterface._run_interface rt.

End SubjectSummary.

(** ** AboutSummary *)

Module AboutSummary.
Import SummaryInterface.

Record input_spec : Type := Inputs {
  version : trait string;
  command : trait string
}.

Definition _generate_segment (self : obj input_spec) (w : world) : res string :=
  Py.format ABOUT_TEMPLATE
    [("version", Py.of_trait (version (inputs self)));
     ("command", Py.of_trait (command (inputs self)));
     ("date", Py.VStr (Time.strftime "%Y-%m-%d %H:%M:%S %z" (localtime w)))].

#[global] Instance segment : Segment input_spec := _generate_segment.

End AboutSummary.

(** Reading an attribute that may not have been assigned yet. *)
Definition attr {S A} (o : option A) : M S A :=
  match o with
  | Some a => mret a
  | None => raise AttributeError
  end.

(** ** MELODICRPT *)

Module MELODICRPT.

Record obj : Type := Obj {
  inputs : MELODIC_inputs;
  generate_report : bool;
  _out_report : option string;
  _melodic_dir : option string
}.

Definition set_out_report (v : string) (self : obj) : obj :=
  Obj (inputs self) (generate_report self) (Some v) (_melodic_dir self).
Definition set_melodic_dir (v : string) (self : obj) : obj :=
  Obj (inputs self) (generate_report self) (_out_report self) (Some v).

(** [MELODICRPT(generate_report=..., **kwargs)]; [_out_report] starts as
    the [None] of the class. *)
Definition __init__ (generate_report : bool) (kwargs : MELODIC_inputs) : obj :=
  Obj kwargs generate_report None None.

(** [self.inputs.in_files[0]]: an [in_files] that was given no file is
    stored by nipype as the undefined trait, and its subscript raises
    [TypeError]. *)
Definition first_in_file (in_files : list string) : res string :=
  match in_files with
  | f :: _ => Ok f
  | [] => Raise TypeError
  end.

Definition _generate_report `{Externals} : M (obj * world) unit :=
  self ← get_self;
  melodic_dir ← attr (_melodic_dir self);
  in_file ← lift (first_in_file (mi_in_files (inputs self)));
  out_file ← attr (_out_report self);
  let args :=
    PlotArgs (Defined melodic_dir) in_file (Some (mi_tr_sec (inputs self)))
             out_file (mi_compress_report (inputs self))
             (mi_report_mask (inputs self)) None in
  emit (PlotCalled args);;
  on_fs (plot_melodic_components args).

Definition SNIPPET : string := "<h4>MELODIC did not converge, no output</h4>".

Definition _post_run_hook `{Externals} (rt : runtime) : M (obj * world) runtime :=
  rt ← on_fs (MELODIC_post_run_hook rt);
  self ← get_self;
  if negb (generate_report self) then mret rt
  else
    emit (LogInfo "Generating report for MELODIC.");;
    w ← get_world;
    let melodic_dir :=
      match mi_out_dir (inputs self) with
      | Defined d => d
      | Undefined => cwd rt
      end in
    set_self (set_melodic_dir (Posix.abspath (getcwd w) melodic_dir));;
    set_self (set_out_report (mi_out_report (inputs self)));;
    self ← get_self;
    out_report ← attr (_out_report self);
    (if negb (Posix.isabs out_report)
     then set_self (set_out_report
                      (Posix.abspath (getcwd w) (Posix.join (cwd rt) out_report)))
     else mret tt);;
    self ← get_self;
    melodic_dir ← attr (_melodic_dir self);
    let mix := Posix.join melodic_dir "melodic_mix" in
    w ← get_world;
    if negb (path_exists (fs w) mix) then
      emit (LogWarning "MELODIC outputs not found, assuming it didn't converge.");;
      out_report ← attr (_out_report self);
      set_self (set_out_report (Py.replace out_report ".svg" ".html"));;
      self ← get_self;
      out_report ← attr (_out_report self);
      open_write out_report SNIPPET;;
      mret rt
    else
      _generate_report;;
      mret rt.

Definition _list_outputs `{Externals} (self : obj) : res (gmap string string) :=
  outputs ← match MELODIC_list_outputs (inputs self) with
            | Raise NotImplementedError => Ok ∅
            | r => r
            end;
  Ok (match _out_report self with
      | Some path => <["out_report" := path]> outputs
      | None => outputs
      end).

End MELODICRPT.

(** ** ICAAROMARPT *)

Module ICAAROMARPT.

Record obj : Type := Obj {
  inputs : ICA_AROMA_inputs;
  generate_report : bool;
  _out_report : option string;
  _noise_components_file : option string
}.

Definition set_out_report (v : string) (self : obj) : obj :=
  Obj (inputs self) (generate_report self) (Some v) (_noise_components_file self).
Definition set_noise_components_file (v : string) (self : obj) : obj :=
  Obj (inputs self) (generate_report self) (_out_report self) (Some v).

(** [ReportCapableInterface.__init__] *)
Definition __init__ (generate_report : bool) (kwargs : ICA_AROMA_inputs) : obj :=
  Obj kwargs generate_report None None.

Definition _generate_report `{Externals} : M (obj * world) unit :=
  self ← get_self;
  noise_components_file ← attr (_noise_components_file self);
  let args :=
    PlotArgs (ai_melodic_dir (inputs self)) (ai_in_file (inputs self)) None
             (ai_out_report (inputs self)) (ai_compress_report (inputs self))
             (ai_report_mask (inputs self)) (Some noise_components_file) in
  emit (PlotCalled args);;
  on_fs (plot_melodic_components args).

(** The hook ICAAROMARPT inherits from the [ReportCapableInterface] mixin
    of nipype: the hook of the tool, then the report when one is
    asked for. *)
Definition ReportCapableInterface_post_run_hook `{Externals} (rt : runtime)
    : M (obj * world) runtime :=
  rt ← on_fs (ICA_AROMA_post_run_hook rt);
  self ← get_self;
  if negb (generate_report self) then mret rt
  else
    w ← get_world;
    set_self (set_out_report (ai_out_report (inputs self)));;
    self ← get_self;
    out_report ← attr (_out_report self);
    (if negb (Posix.isabs out_report)
     then set_self (set_out_report
                      (Posix.abspath (getcwd w) (Posix.join (cwd rt) out_report)))
     else mret tt);;
    _generate_report;;
    mret rt.

Definition _post_run_hook `{Externals} (rt : runtime) : M (obj * world) runtime :=
  self ← get_self;
  w ← get_world;
  outputs ← lift (ICA_AROMA_aggregate_outputs (inputs self) rt (fs w));
  emit OutputsAggregated;;
  out_dir ← match ao_out_dir outputs with
            | Defined d => mret d
            | Undefined => raise TypeError
            end;
  set_self (set_noise_components_file (Posix.join out_dir "classified_motion_ICs.txt"));;
  emit (LogInfo "Generating report for ICA AROMA");;
  ReportCapableInterface_post_run_hook rt.

End ICAAROMARPT.

(** ** The rendered texts, written out

    What each template becomes once its fields are filled; the theorems
    below relate the code to these. *)

Definition subject_html
    (subject_id n_t1s t2w n_bold tasks std_spaces nstd_spaces freesurfer_status : string)
    : string :=
  TAB +:+ "<ul class=" +:+ DQ +:+ "elem-desc" +:+ DQ +:+ ">" +:+ NL +:+
  TAB +:+ TAB +:+ "<li>Subject ID: " +:+ subject_id +:+ "</li>" +:+ NL +:+
  TAB +:+ TAB +:+ "<li>Structural images: " +:+ n_t1s +:+ " T1-weighted "
    +:+ t2w +:+ "</li>" +:+ NL +:+
  TAB +:+ TAB +:+ "<li>Functional series: " +:+ n_bold +:+ "</li>" +:+ NL +:+
  tasks +:+ NL +:+
  TAB +:+ TAB +:+ "<li>Standard output spaces: " +:+ std_spaces +:+ "</li>" +:+ NL +:+
  TAB +:+ TAB +:+ "<li>Non-standard output spaces: " +:+ nstd_spaces +:+ "</li>" +:+ NL +:+
  TAB +:+ TAB +:+ "<li>FreeSurfer reconstruction: " +:+ freesurfer_status
    +:+ "</li>" +:+ NL +:+
  TAB +:+ "</ul>" +:+ NL.

(** The text of an input trait in a template: an unset trait prints as
    [<undefined>]. *)
Definition trait_text (t : trait string) : string :=
  match t with Defined s => s | Undefined => "<undefined>" end.

(** The segment of a subject whose reconstruction status, number of
    functional series and list of tasks are given. *)
Definition subject_segment (inp : SubjectSummary.input_spec)
    (freesurfer_status : string) (n_bold : nat) (tasks : string) : string :=
  subject_html
    (trait_text (SubjectSummary.subject_id inp))
    (Py.decimal (length (SubjectSummary.t1w inp)))
    (SubjectSummary.t2w_seg inp)
    (Py.decimal n_bold)
    tasks
    (Py.join ", " (SubjectSummary.std_spaces inp))
    (Py.join ", " (SubjectSummary.nstd_spaces inp))
    freesurfer_status.

(** One entry of the list of tasks: [label (n run)] or [label (n runs)]. *)
Definition task_entry (item : string * nat) : string :=
  TAB +:+ TAB +:+ TAB +:+ "<li>Task: " +:+ item.1 +:+ " (" +:+ Py.decimal item.2
    +:+ (if item.2 =? 1 then " run" else " runs") +:+ ")</li>".

Definition tasks_html (entries : list (string * nat)) : string :=
  match entries with
  | [] => ""
  | _ =>
      Py.join NL
        ([TAB +:+ TAB +:+ "<ul class=" +:+ DQ +:+ "elem-desc" +:+ DQ +:+ ">"]
           ++ map task_entry entries ++ [TAB +:+ TAB +:+ "</ul>"])
  end.

Definition about_html (version command date : string) : string :=
  TAB +:+ "<ul>" +:+ NL +:+
  TAB +:+ TAB +:+ "<li>fMRIPrep version: " +:+ version +:+ "</li>" +:+ NL +:+
  TAB +:+ TAB +:+ "<li>fMRIPrep command: <code>" +:+ command +:+ "</code></li>" +:+ NL +:+
  TAB +:+ TAB +:+ "<li>Date preprocessed: " +:+ date +:+ "</li>" +:+ NL +:+
  TAB +:+ "</ul>" +:+ NL +:+
  "</div>" +:+ NL.

(** How often [x] occurs in [l]. *)
Definition occurrences (x : string) (l : list string) : nat :=
  length (filter (x =.) l).

(** The path [MELODICRPT._post_run_hook] keeps in [_out_report] before it
    looks for the mixing matrix (lines 150 to 152). *)
Definition resolved_out_report (getcwd cwd out_report : string) : string :=
  if Posix.isabs out_report then out_report
  else Posix.abspath getcwd (Posix.join cwd out_report).

(** The directory [MELODICRPT._post_run_hook] looks into (lines 145 to
    148). *)
Definition resolved_melodic_dir (getcwd cwd : string) (out_dir : trait string) : string :=
  Posix.abspath getcwd match out_dir with Defined d => d | Undefined => cwd end.

(** A time of the calendar, with a year of four digits. *)
Definition calendar_time (t : struct_time) : Prop :=
  (1000 ≤ Z.of_nat (tm_year t) ≤ 9999)%Z ∧ 1 ≤ tm_mon t ≤ 12 ∧ 1 ≤ tm_mday t ≤ 31
  ∧ tm_hour t ≤ 23 ∧ tm_min t ≤ 59 ∧ tm_sec t ≤ 61
  ∧ (-86400 < tm_gmtoff t < 86400)%Z.

Definition is_digit (c : ascii) : bool := Ascii.leb "0" c && Ascii.leb c "9".

(** [has_shape pattern s]: [s] has the length of [pattern], a digit where
    the pattern has [D], a sign where it has [+], and the character of
    the pattern elsewhere. *)
Fixpoint has_shape (pattern s : string) : bool :=
  match pattern, s with
  | EmptyString, EmptyString => true
  | String p pattern', String c s' =>
      (if Ascii.eqb p "D" then is_digit c
       else if Ascii.eqb p "+" then Ascii.eqb c "+" || Ascii.eqb c "-"
       else Ascii.eqb p c)
      && has_shape pattern' s'
  | _, _ => false
  end.

(** ** A concrete environment, for the examples *)

Definition example_fs : filesystem :=
  FileSystem ∅ {["/work"; "/fs"; "/fs/sub-02"]}
    (λ path, Py.startswith path "/work/" || negb (Posix.isabs path)).

Definition example_time : struct_time := StructTime 2024 3 7 9 5 0 (-19800).

Definition example_world : world := World example_fs "/work" example_time [].

Definition example_runtime : runtime := Runtime "/work".

(** The reconstruction is a no-op when the directory of the subject
    exists; the plotting routine writes its image; MELODIC declares its
    output directory; ICA-AROMA declares [/work/out]. *)
Definition example_externals : Externals := {|
  ReconAll_cmdline fs0 dir sid _ flags :=
    Ok (if path_exists fs0 (Posix.join dir sid)
        then "echo recon-all: nothing to do"
        else "recon-all -autorecon1 " +:+ flags +:+ " -subjid " +:+ sid);
  plot_melodic_components args fs0 :=
    match write_file fs0 (pa_out_file args) "<svg></svg>" with
    | Ok fs' => (Ok tt, fs')
    | Raise e => (Raise e, fs0)
    end;
  MELODIC_post_run_hook rt fs0 := (Ok rt, fs0);
  MELODIC_list_outputs inp :=
    Ok {[ "out_dir" := match mi_out_dir inp with Defined d => d | Undefined => "/work" end ]};
  ICA_AROMA_aggregate_outputs _ _ _ := Ok (ICAAROMAOutputs (Defined "/work/out") ∅);
  ICA_AROMA_post_run_hook rt fs0 := (Ok rt, fs0)
|}.

Definition example_subject (subjects_dir subject_id : trait string)
    (bold : list SubjectSummary.bold_entry)
    : SummaryInterface.obj SubjectSummary.input_spec :=
  SummaryInterface.Obj
    (SubjectSummary.Inputs ["/data/sub-01/anat/sub-01_T1w.nii.gz"] []
       subjects_dir subject_id (Defined bold) ["MNI152NLin6Asym"] [])
    ∅.

Definition example_melodic (out_report : string) : MELODIC_inputs :=
  MELODICInputs Undefined out_report ["/data/sub-01_task-rest_bold.nii.gz"]
    (Defined (Float 2 0)) CompressAuto Undefined.

Definition example_aroma : ICA_AROMA_inputs :=
  ICAAROMAInputs (Defined "/work/melodic") "/data/sub-01_task-rest_bold.nii.gz"
    "ica_aroma_reportlet.svg" CompressAuto Undefined.

(** ** Names for the statements about the naming pattern *)

(** The loop of [Re.run] for [r*], with its continuation [k]. *)
Definition star_loop (r1 : Re.regex)
    (k : nat → string → Re.groups → option Re.match_object)
    : nat → nat → string → Re.groups → option Re.match_object :=
  fix loop (fuel pos : nat) (s : string) (gs : Re.groups) : option Re.match_object :=
    match fuel with
    | O => k pos s gs
    | S fuel' =>
        match Re.run r1 pos s gs
                (fun pos' s' gs' =>
                   if pos <? pos' then loop fuel' pos' s' gs' else None) with
        | Some m => Some m
        | None => k pos s gs
        end
    end.

(** The names of the groups of a pattern. *)
Fixpoint group_names (r : Re.regex) : list string :=
  match r with
  | Re.Bol | Re.Lit _ | Re.Dot | Re.Class _ => []
  | Re.Seq r1 r2 => group_names r1 ++ group_names r2
  | Re.Opt r1 | Re.Star r1 | Re.Plus r1 => group_names r1
  | Re.Group (Some n) r1 => n :: group_names r1
  | Re.Group None r1 => group_names r1
  end.

(** A character of [[a-zA-Z0-9]], a string of such characters, and a
    string that starts with one. *)
Definition is_alnum (c : ascii) : bool :=
  Re.in_class [("a", "z"); ("A", "Z"); ("0", "9")]%char c.

Fixpoint all_alnum (s : string) : bool :=
  match s with
  | EmptyString => true
  | String c s' => is_alnum c && all_alnum s'
  end.

Definition starts_alnum (s : string) : bool :=
  match s with
  | EmptyString => false
  | String c _ => is_alnum c
  end.

(** [c in s] for a character [c] *)
Fixpoint has_char (c : ascii) (s : string) : bool :=
  match s with
  | EmptyString => false
  | String a s' => Ascii.eqb a c || has_char c s'
  end.

(** A label of a BIDS entity: one or more characters of [[a-zA-Z0-9]]. *)
Definition is_label (s : string) : bool :=
  all_alnum s && negb (String.eqb s "").

(** A file name that starts with the subject, an optional session and
    the task, in this order. *)
Definition canonical_name (sub : string) (ses : option string) (task rest : string)
    : string :=
  "sub-" +:+ sub +:+
  match ses with
  | Some x => "_ses-" +:+ x +:+ "_task-" +:+ task +:+ rest
  | None => "_task-" +:+ task +:+ rest
  end.

(** A continuation that always finds a match. *)
Definition total_k (k : nat → string → Re.groups → option Re.match_object) : Prop :=
  ∀ pos s gs, is_Some (k pos s gs).

(** The parts of [BIDS_NAME]: the optional directory, what follows it,
    and the entities after the task. *)
Definition dir_part : Re.regex :=
  Re.Opt (Re.Group None (Re.Seq (Re.Star Re.Dot) (Re.Lit "/"))).

Definition after_task : Re.regex :=
  Re.Seq (entity "acq_id" "acq-") (Re.Seq (entity "rec_id" "rec-") (entity "run_id" "run-")).

Definition after_dir : Re.regex :=
  Re.Seq (Re.Group (Some "subject_id") (Re.word "sub-" (Re.Plus alnum)))
    (Re.Seq (entity "session_id" "ses-") (Re.Seq (entity "task_id" "task-") after_task)).

(** The continuation of [Re.search] for a match that starts at offset 0. *)
Definition found : nat → string → Re.groups → option Re.match_object :=
  fun pos' _ gs => Some (Re.MatchObject 0 pos' gs).

Definition opt_label (ses : option string) : bool :=
  match ses with Some x => is_label x | None => true end.

(** A file name with its subject and an optional session, and then
    [rest]. *)
Definition subject_name (sub : string) (ses : option string) (rest : string) : string :=
  "sub-" +:+ sub +:+
  match ses with
  | Some x => "_ses-" +:+ x +:+ rest
  | None => rest
  end.

(** The world at another time of the clock. *)
Definition at_time (w : world) (t : struct_time) : world :=
  World (fs w) (getcwd w) t (trace w).

(** * Properties *)

Lemma format_SUBJECT_TEMPLATE sid n_t1s t2w n_bold tasks std nstd status :
  Py.format SUBJECT_TEMPLATE
    [("subject_id", Py.of_trait sid); ("n_t1s", Py.VInt n_t1s); ("t2w", Py.VStr t2w);
     ("n_bold", Py.VInt n_bold); ("tasks", Py.VStr tasks);
     ("std_spaces", Py.VStr std); ("nstd_spaces", Py.VStr nstd);
     ("freesurfer_status", Py.VStr status)]
  = Ok (subject_html (trait_text sid) (Py.decimal n_t1s) t2w (Py.decimal n_bold)
          tasks std nstd status).
Proof. destruct sid; reflexivity. Qed.

Lemma format_ABOUT_TEMPLATE version command date :
  Py.format ABOUT_TEMPLATE
    [("version", Py.of_trait version); ("command", Py.of_trait command);
     ("date", Py.VStr date)]
  = Ok (about_html (trait_text version) (trait_text command) date).
Proof. destruct version, command; reflexivity. Qed.

Lemma task_line_entry item : SubjectSummary.task_line item = Ok (task_entry item).
Proof. destruct item as [l n]. unfold SubjectSummary.task_line, task_entry. simpl. destruct (n =? 1); reflexivity. Qed.

(** ** Sequencing *)

Lemma res_bind_Ok {A B} (m : res A) (k : A → res B) a :
  m = Ok a → (m ≫= k) = k a.
Proof. intros ->. reflexivity. Qed.

Lemma res_bind_Raise {A B} (m : res A) (k : A → res B) e :
  m = Raise e → (m ≫= k) = Raise e.
Proof. intros ->. reflexivity. Qed.

Lemma res_mapM_Ok_map {A B} (f : A → res B) (g : A → B) l :
  (∀ a, f a = Ok (g a)) → res_mapM f l = Ok (map g l).
Proof.
  intros Hfg. induction l as [|a l IH]; simpl; [done|].
  rewrite Hfg. simpl. rewrite IH. reflexivity.
Qed.

Lemma res_mapM_length {A B} (f : A → res B) l bs :
  res_mapM f l = Ok bs → length bs = length l.
Proof.
  revert bs. induction l as [|a l IH]; simpl; intros bs Hbs.
  - by inversion Hbs.
  - destruct (f a); [|done]. simpl in Hbs.
    destruct (res_mapM f l) as [bs'|]; [|done].
    inversion Hbs; subst. simpl. f_equal. by apply IH.
Qed.

Lemma res_mapM_Forall2 {A B} (f : A → res B) l bs :
  res_mapM f l = Ok bs → Forall2 (λ a b, f a = Ok b) l bs.
Proof.
  revert bs. induction l as [|a l IH]; simpl; intros bs Hbs.
  - inversion Hbs. constructor.
  - destruct (f a) as [b|] eqn:Hfa; [|done]. simpl in Hbs.
    destruct (res_mapM f l) as [bs'|]; [|done].
    inversion Hbs; subst. constructor; [done|]. by apply IH.
Qed.

Lemma res_mapM_Raise {A B} (f : A → res B) l a :
  a ∈ l → raised (f a) = true → raised (res_mapM f l) = true.
Proof.
  intros Hin Hbad. induction l as [|a' l IH]; [by inversion Hin|].
  simpl. destruct (f a') as [b|] eqn:Hfa; [|done]. simpl.
  inversion Hin; subst.
  - rewrite Hfa in Hbad. done.
  - destruct (res_mapM f l); [|done]. by apply IH.
Qed.

(** ** Counting and sorting *)

Lemma Counter_acc_lookup labels (acc : gmap string nat) x :
  foldl (fun counts x => <[x := S (default 0 (counts !! x))]> counts) acc labels !! x
  = match occurrences x labels with
    | O => acc !! x
    | S k => Some (S k + default 0 (acc !! x))
    end.
Proof.
  revert acc. induction labels as [|a l IH]; intros acc; [done|].
  simpl. rewrite IH. unfold occurrences. rewrite filter_cons.
  destruct (decide (x = a)) as [->|Hne].
  - simpl. rewrite lookup_insert_eq. simpl.
    destruct (length (filter (eq a) l)); f_equal; lia.
  - rewrite lookup_insert_ne by done. done.
Qed.

Lemma Counter_lookup labels x :
  Counter labels !! x
  = match occurrences x labels with O => None | S k => Some (S k) end.
Proof.
  unfold Counter. rewrite Counter_acc_lookup, lookup_empty. simpl.
  destruct (occurrences x labels); [done|]. f_equal. lia.
Qed.

Lemma occurrences_pos x labels : 0 < occurrences x labels ↔ x ∈ labels.
Proof.
  unfold occurrences. induction labels as [|a l IH].
  - simpl. split; [lia|by inversion 1].
  - rewrite filter_cons. destruct (decide (x = a)) as [->|Hne].
    + simpl. split; [intros _; left|lia].
    + rewrite IH. split; [by right|]. inversion 1; by subst.
Qed.

Lemma Counter_empty labels : Counter labels = ∅ ↔ labels = [].
Proof.
  split; [|by intros ->].
  intros Hc. destruct labels as [|a l]; [done|].
  assert (Counter (a :: l) !! a = None) as Hl by (rewrite Hc; apply lookup_empty).
  rewrite Counter_lookup in Hl.
  assert (0 < occurrences a (a :: l)) by (apply occurrences_pos; left).
  destruct (occurrences a (a :: l)); [lia|done].
Qed.

Lemma compare_Lt_trans a b c :
  String.compare a b = Lt → String.compare b c = Lt → String.compare a c = Lt.
Proof.
  intros Hab Hbc.
  apply OrderedTypeEx.String_as_OT.cmp_lt.
  eapply OrderedTypeEx.String_as_OT.lt_trans;
    apply OrderedTypeEx.String_as_OT.cmp_lt; eassumption.
Qed.

Lemma compare_Eq_iff a b : String.compare a b = Eq ↔ a = b.
Proof. apply OrderedTypeEx.String_as_OT.cmp_eq. Qed.

#[local] Instance item_le_trans : Transitive item_le.
Proof.
  intros [a n] [b m] [c p]. unfold item_le. simpl.
  destruct (String.compare a b) eqn:Hab; [|  |done].
  - apply compare_Eq_iff in Hab as ->.
    destruct (String.compare b c); [lia|done|done].
  - destruct (String.compare b c) eqn:Hbc; [| |done].
    + apply compare_Eq_iff in Hbc as ->. by rewrite Hab.
    + by rewrite (compare_Lt_trans _ _ _ Hab Hbc).
Qed.

#[local] Instance item_le_total : Total item_le.
Proof.
  intros [a n] [b m]. unfold item_le. simpl.
  rewrite (String.compare_antisym b a).
  destruct (String.compare a b) eqn:Hab; simpl; [lia|by left|by right].
Qed.

Lemma elem_of_sorted_items counts l n :
  (l, n) ∈ sorted_items counts ↔ counts !! l = Some n.
Proof.
  unfold sorted_items. rewrite merge_sort_Permutation.
  apply elem_of_map_to_list.
Qed.

Lemma NoDup_sorted_items counts : NoDup (sorted_items counts).*1.
Proof.
  unfold sorted_items. rewrite merge_sort_Permutation.
  apply NoDup_fst_map_to_list.
Qed.

Lemma sorted_items_empty counts : sorted_items counts = [] ↔ counts = ∅.
Proof.
  unfold sorted_items. split.
  - intros Hs. apply map_to_list_empty_iff.
    apply Permutation_nil_r. rewrite <- Hs. by rewrite merge_sort_Permutation.
  - intros ->. by rewrite map_to_list_empty.
Qed.

(** Items sorted as tuples and with distinct labels have their labels in
    strictly increasing order. *)
Lemma StronglySorted_labels (items : list (string * nat)) :
  StronglySorted item_le items → NoDup items.*1 →
  StronglySorted (λ a b, String.compare a b = Lt) items.*1.
Proof.
  induction 1 as [|[a n] items Hs IH Hall]; simpl; intros Hnd; [constructor|].
  apply NoDup_cons in Hnd as [Hnotin Hnd].
  constructor; [by apply IH|].
  apply Forall_fmap, Forall_forall. intros [b m] Hin.
  rewrite Forall_forall in Hall. specialize (Hall _ Hin).
  unfold item_le in Hall. simpl in *.
  destruct (String.compare a b) eqn:Hab; [|done|done].
  apply compare_Eq_iff in Hab as ->.
  exfalso. apply Hnotin. apply list_elem_of_fmap. by exists (b, m).
Qed.

Lemma sorted_items_increasing counts :
  StronglySorted (λ a b, String.compare a b = Lt) (sorted_items counts).*1.
Proof.
  apply StronglySorted_labels; [|apply NoDup_sorted_items].
  apply StronglySorted_merge_sort; apply _.
Qed.

(** ** SubjectSummary: the rendering step *)

Section subject_summary.
Context `{Externals}.
Import SummaryInterface SubjectSummary.

Lemma tasks_segment_html counts :
  tasks_segment counts = Ok (tasks_html (sorted_items counts)).
Proof.
  unfold tasks_segment. case_bool_decide as Hc.
  - subst. reflexivity.
  - rewrite (res_mapM_Ok_map _ task_entry) by apply task_line_entry.
    simpl. unfold tasks_html.
    destruct (sorted_items counts) eqn:Hs; [|done].
    by apply sorted_items_empty in Hs.
Qed.

Lemma generate_segment_Ok self w status files labels :
  freesurfer_status (inputs self) w = Ok status →
  bold_series (inputs self) = Ok files →
  res_mapM task_of files = Ok labels →
  _generate_segment self w
  = Ok (subject_segment (inputs self) status (length files)
          (tasks_html (sorted_items (Counter labels)))).
Proof.
  intros Hst Hfiles Hlabels. unfold _generate_segment, task_counts.
  rewrite Hst. simpl. rewrite Hfiles. simpl. rewrite Hlabels. simpl.
  rewrite tasks_segment_html. simpl.
  apply format_SUBJECT_TEMPLATE.
Qed.

Lemma generate_segment_inv self w html :
  _generate_segment self w = Ok html →
  ∃ status files labels,
    freesurfer_status (inputs self) w = Ok status
    ∧ bold_series (inputs self) = Ok files
    ∧ res_mapM task_of files = Ok labels.
Proof.
  unfold _generate_segment, task_counts. intros Hseg.
  destruct (freesurfer_status (inputs self) w) as [status|] eqn:Hst; [|done].
  destruct (bold_series (inputs self)) as [files|] eqn:Hfiles; [|done].
  simpl in Hseg.
  destruct (res_mapM task_of files) as [labels|] eqn:Hlabels; [|done].
  by exists status, files, labels.
Qed.

Lemma generate_segment_Raise_status self w e :
  freesurfer_status (inputs self) w = Raise e → _generate_segment self w = Raise e.
Proof. unfold _generate_segment. by intros ->. Qed.

Lemma generate_segment_Raise_files self w status e :
  freesurfer_status (inputs self) w = Ok status →
  bold_series (inputs self) = Raise e →
  _generate_segment self w = Raise e.
Proof. unfold _generate_segment. by intros -> ->. Qed.

Lemma generate_segment_Raise_labels self w status files e :
  freesurfer_status (inputs self) w = Ok status →
  bold_series (inputs self) = Ok files →
  res_mapM task_of files = Raise e →
  _generate_segment self w = Raise e.
Proof.
  intros Hst Hfiles Hlabels. unfold _generate_segment, task_counts.
  rewrite Hst. simpl. rewrite Hfiles. simpl. by rewrite Hlabels.
Qed.

End subject_summary.

(** ** SummaryInterface: the run step *)

(** Unfold the sequencing of a method down to its state transformer. *)
Ltac run_M :=
  unfold attr, open_write;
  unfold mbind, M_bind, res_bind, mret, M_ret, get_self, get_world, set_self, emit,
    on_fs, raise, lift, write_file;
  cbn [fst snd].

Lemma with_fs_fs w : with_fs w (fs w) = w.
Proof. by destruct w. Qed.

Lemma run_interface_cases {Inputs} `{!SummaryInterface.Segment Inputs}
    (self : SummaryInterface.obj Inputs) (w : world) (rt : runtime) :
  SummaryInterface._run_interface rt (self, w)
  = match SummaryInterface._generate_segment self w with
    | Raise e => (Raise e, (self, w))
    | Ok segment =>
        let fname := Posix.join (cwd rt) "report.html" in
        if writable (fs w) fname
        then (Ok rt, (SummaryInterface.set_result "out_report" fname self,
                      after_write w fname segment))
        else (Raise OSError, (self, w))
    end.
Proof.
  unfold SummaryInterface._run_interface. run_M.
  destruct (SummaryInterface._generate_segment self w) as [segment|e]; [|done].
  simpl. destruct (writable (fs w) _); simpl; [done|]. by rewrite with_fs_fs.
Qed.

Lemma subject_run_interface_cases `{Externals}
    (self : SummaryInterface.obj SubjectSummary.input_spec) (w : world) (rt : runtime) :
  SubjectSummary._run_interface rt (self, w)
  = SummaryInterface._run_interface rt
      (match SubjectSummary.subject_id (SummaryInterface.inputs self) with
       | Defined sid => SummaryInterface.set_result "subject_id" sid self
       | Undefined => self
       end, w).
Proof.
  unfold SubjectSummary._run_interface, mbind, M_bind, get_self; simpl.
  destruct (SubjectSummary.subject_id _); reflexivity.
Qed.

Lemma generate_segment_inputs `{Externals}
    (self self' : SummaryInterface.obj SubjectSummary.input_spec) (w : world) :
  SummaryInterface.inputs self = SummaryInterface.inputs self' →
  SubjectSummary._generate_segment self w = SubjectSummary._generate_segment self' w.
Proof. unfold SubjectSummary._generate_segment. by intros ->. Qed.

(** ** Substrings *)

Lemma startswith_app s b : Py.startswith (s +:+ b) s = true.
Proof. induction s as [|c s IH]; simpl; [done|]. by rewrite Ascii.eqb_refl. Qed.

Lemma contains_app a s b : Py.contains (a +:+ s +:+ b) s = true.
Proof.
  induction a as [|c a IH]; simpl.
  - destruct (s +:+ b) eqn:Hsb; simpl; rewrite <- ?Hsb, startswith_app; done.
  - rewrite IH. apply orb_true_r.
Qed.

Lemma contains_app_l a s sub :
  Py.contains s sub = true → Py.contains (a +:+ s) sub = true.
Proof.
  intros Hs. induction a as [|c a IH]; [done|].
  change (Py.contains (String c (a +:+ s)) sub = true).
  simpl. rewrite IH. apply orb_true_r.
Qed.

(** An occurrence of [.svg] cannot start inside the stem and run into a
    final [.svg]. *)
Lemma append_cons c s t : String c s +:+ t = String c (s +:+ t).
Proof. reflexivity. Qed.

Lemma append_empty_l t : "" +:+ t = t.
Proof. reflexivity. Qed.

Lemma startswith_svg_app c s :
  Py.startswith (String c s) ".svg" = false →
  Py.startswith (String c (s +:+ ".svg")) ".svg" = false.
Proof.
  destruct s as [|c2 [|c3 [|c4 s]]]; rewrite ?append_cons, ?append_empty_l;
    cbn [Py.startswith]; intros Hs.
  - by destruct (Ascii.eqb "." c).
  - by destruct (Ascii.eqb "." c), (Ascii.eqb "s" c2).
  - by destruct (Ascii.eqb "." c), (Ascii.eqb "s" c2), (Ascii.eqb "v" c3).
  - exact Hs.
Qed.

Lemma replace_svg_suffix stem :
  Py.contains stem ".svg" = false →
  Py.replace (stem +:+ ".svg") ".svg" ".html" = stem +:+ ".html".
Proof.
  unfold Py.replace. induction stem as [|c s IH]; [done|].
  cbn [Py.contains]. intros [Hhere Hrest]%orb_false_iff.
  rewrite append_cons. cbn [Py.replace_go]. rewrite (startswith_svg_app _ _ Hhere), (IH Hrest). done.
Qed.

(** ** SubjectSummary: the claims *)

Lemma bold_series_Forall2 inp files :
  SubjectSummary.bold_series inp = Ok files →
  Forall2 (λ entry file,
             entry = SubjectSummary.OneFile file
             ∨ ∃ rest, entry = SubjectSummary.FileList (file :: rest))
    match SubjectSummary.bold inp with Defined l => l | Undefined => [] end
    files.
Proof.
  intros Hfiles. apply res_mapM_Forall2 in Hfiles.
  eapply Forall2_impl; [exact Hfiles|].
  intros [path|[|path rest]] file Hfirst; simpl in Hfirst; inversion Hfirst; subst.
  - by left.
  - right. by exists rest.
Qed.

(** C1: when the status and every functional series can be read off, the
    segment is rendered and its list of tasks has exactly one entry for
    each distinct task label, the labels in strictly increasing
    lexicographic order, each with the number of series of that label,
    written [run] for one and [runs] otherwise (see [task_entry]); with no
    functional series the list is left out. *)
Theorem tasks_section_by_label `{Externals}
    (self : SummaryInterface.obj SubjectSummary.input_spec) (w : world)
    (status : string) (files labels : list string) :
  SubjectSummary.freesurfer_status (SummaryInterface.inputs self) w = Ok status →
  SubjectSummary.bold_series (SummaryInterface.inputs self) = Ok files →
  res_mapM SubjectSummary.task_of files = Ok labels →
  let entries := sorted_items (Counter labels) in
  SubjectSummary._generate_segment self w
  = Ok (subject_segment (SummaryInterface.inputs self) status (length files)
          (tasks_html entries))
  ∧ NoDup entries.*1
  ∧ (∀ label, label ∈ entries.*1 ↔ label ∈ labels)
  ∧ (∀ label n, (label, n) ∈ entries → n = occurrences label labels)
  ∧ StronglySorted (λ a b, String.compare a b = Lt) entries.*1
  ∧ (∀ label n, (label, n) ∈ entries →
       task_entry (label, n)
       = TAB +:+ TAB +:+ TAB +:+ "<li>Task: " +:+ label +:+ " (" +:+ Py.decimal n
           +:+ (if n =? 1 then " run" else " runs") +:+ ")</li>")
  ∧ (files = [] → tasks_html entries = "").
Proof.
  intros Hst Hfiles Hlabels entries.
  split; [by apply generate_segment_Ok|].
  split; [apply NoDup_sorted_items|].
  assert (∀ label n, (label, n) ∈ entries → n = occurrences label labels ∧ 0 < n)
    as Hentries.
  { intros label n Hin. apply elem_of_sorted_items in Hin.
    rewrite Counter_lookup in Hin.
    destruct (occurrences label labels); inversion Hin; lia. }
  split; [|split; [|split; [|split]]].
  - intros label. rewrite list_elem_of_fmap. split.
    + intros [[l n] [-> Hin]]. simpl.
      destruct (Hentries _ _ Hin) as [-> Hpos]. by apply occurrences_pos.
    + intros Hin. apply occurrences_pos in Hin.
      exists (label, occurrences label labels). split; [done|].
      apply elem_of_sorted_items. rewrite Counter_lookup.
      destruct (occurrences label labels); [lia|done].
  - intros label n Hin. by destruct (Hentries _ _ Hin).
  - apply sorted_items_increasing.
  - reflexivity.
  - intros ->. inversion Hlabels; subst. reflexivity.
Qed.

Lemma tasks_section_by_label_witness :
  SubjectSummary._generate_segment (H := example_externals)
    (example_subject Undefined (Defined "01")
       [SubjectSummary.OneFile "sub-01_task-rest_run-1_bold.nii.gz";
        SubjectSummary.OneFile "sub-01_task-rest_run-2_bold.nii.gz"])
    example_world
  = Ok (subject_segment
          (SummaryInterface.inputs (example_subject Undefined (Defined "01") []))
          "Not run" 2 (tasks_html [("rest", 2)])).
Proof.
  pose proof (tasks_section_by_label (H := example_externals)
    (example_subject Undefined (Defined "01")
       [SubjectSummary.OneFile "sub-01_task-rest_run-1_bold.nii.gz";
        SubjectSummary.OneFile "sub-01_task-rest_run-2_bold.nii.gz"])
    example_world "Not run"
    ["sub-01_task-rest_run-1_bold.nii.gz"; "sub-01_task-rest_run-2_bold.nii.gz"]
    ["rest"; "rest"]) as Hthm.
  destruct Hthm as [Hseg _]; [reflexivity|reflexivity|vm_compute; reflexivity|].
  rewrite Hseg. vm_compute. reflexivity.
Defined.

(** The two series of the specification, and its single series. *)
Example tasks_rest_two_runs :
  tasks_html (sorted_items (Counter ["rest"; "rest"]))
  = Py.join NL
      [TAB +:+ TAB +:+ "<ul class=" +:+ DQ +:+ "elem-desc" +:+ DQ +:+ ">";
       TAB +:+ TAB +:+ TAB +:+ "<li>Task: rest (2 runs)</li>";
       TAB +:+ TAB +:+ "</ul>"].
Proof. vm_compute. reflexivity. Qed.

Example tasks_motor_one_run :
  res_mapM SubjectSummary.task_of ["sub-01_task-motor_bold.nii.gz"] = Ok ["motor"]
  ∧ tasks_html (sorted_items (Counter ["motor"]))
    = Py.join NL
        [TAB +:+ TAB +:+ "<ul class=" +:+ DQ +:+ "elem-desc" +:+ DQ +:+ ">";
         TAB +:+ TAB +:+ TAB +:+ "<li>Task: motor (1 run)</li>";
         TAB +:+ TAB +:+ "</ul>"].
Proof. split; vm_compute; reflexivity. Qed.

(** C2: for inputs that render, every entry of [bold] that is a list
    stands for its first file, and the segment is the template with the
    subject id as given, the number of T1-weighted images, the annotation
    [(+ N T2-weighted)] exactly when there are N > 0 T2-weighted images,
    and the number of entries of [bold] (none when [bold] is undefined). *)
Theorem subject_summary_counts `{Externals}
    (self : SummaryInterface.obj SubjectSummary.input_spec) (w : world)
    (status : string) (files labels : list string) :
  SubjectSummary.freesurfer_status (SummaryInterface.inputs self) w = Ok status →
  SubjectSummary.bold_series (SummaryInterface.inputs self) = Ok files →
  res_mapM SubjectSummary.task_of files = Ok labels →
  let inp := SummaryInterface.inputs self in
  let entries :=
    match SubjectSummary.bold inp with Defined l => l | Undefined => [] end in
  let n_t2w := length (SubjectSummary.t2w inp) in
  let html :=
    subject_html
      (trait_text (SubjectSummary.subject_id inp))
      (Py.decimal (length (SubjectSummary.t1w inp)))
      (if n_t2w =? 0 then "" else "(+ " +:+ Py.decimal n_t2w +:+ " T2-weighted)")
      (Py.decimal (length entries))
      (tasks_html (sorted_items (Counter labels)))
      (Py.join ", " (SubjectSummary.std_spaces inp))
      (Py.join ", " (SubjectSummary.nstd_spaces inp))
      status in
  Forall2 (λ entry file,
             entry = SubjectSummary.OneFile file
             ∨ ∃ rest, entry = SubjectSummary.FileList (file :: rest))
    entries files
  ∧ SubjectSummary._generate_segment self w = Ok html
  ∧ (∀ sid, SubjectSummary.subject_id inp = Defined sid →
       trait_text (SubjectSummary.subject_id inp) = sid
       ∧ Py.contains html sid = true).
Proof.
  intros Hst Hfiles Hlabels inp entries n_t2w html.
  split; [by apply bold_series_Forall2|].
  split.
  - rewrite (generate_segment_Ok _ _ _ _ _ Hst Hfiles Hlabels).
    unfold subject_segment, html, SubjectSummary.t2w_seg. fold inp.
    rewrite (res_mapM_length _ _ _ Hfiles). fold entries.
    subst n_t2w. by destruct (SubjectSummary.t2w inp).
  - intros sid Hsid. rewrite Hsid. simpl. split; [done|].
    unfold html. rewrite Hsid. simpl.
    apply (contains_app
      (TAB +:+ "<ul class=" +:+ DQ +:+ "elem-desc" +:+ DQ +:+ ">" +:+ NL +:+
       TAB +:+ TAB +:+ "<li>Subject ID: ") sid).
Qed.

Lemma subject_summary_counts_witness :
  SubjectSummary._generate_segment (H := example_externals)
    (example_subject (Defined "/fs") (Defined "02")
       [SubjectSummary.FileList ["sub-02_task-rest_echo-1_bold.nii.gz";
                                 "sub-02_task-rest_echo-2_bold.nii.gz"];
        SubjectSummary.OneFile "sub-02_task-nback_bold.nii.gz"])
    example_world
  = Ok (subject_html "02" "1" "" "2"
          (tasks_html [("nback", 1); ("rest", 1)])
          "MNI152NLin6Asym" "" "Pre-existing directory").
Proof.
  pose proof (subject_summary_counts (H := example_externals)
    (example_subject (Defined "/fs") (Defined "02")
       [SubjectSummary.FileList ["sub-02_task-rest_echo-1_bold.nii.gz";
                                 "sub-02_task-rest_echo-2_bold.nii.gz"];
        SubjectSummary.OneFile "sub-02_task-nback_bold.nii.gz"])
    example_world "Pre-existing directory"
    ["sub-02_task-rest_echo-1_bold.nii.gz"; "sub-02_task-nback_bold.nii.gz"]
    ["rest"; "nback"]) as Hthm.
  destruct Hthm as (_ & Hseg & _);
    [vm_compute; reflexivity|reflexivity|vm_compute; reflexivity|].
  rewrite Hseg. vm_compute. reflexivity.
Defined.

Lemma task_of_Raise series e :
  SubjectSummary.task_of series = Raise e → e = AttributeError ∨ e = TypeError.
Proof.
  unfold SubjectSummary.task_of.
  destruct (Re.search BIDS_NAME series) as [m|]; simpl.
  - destruct (Re.groupdict m "task_id"); simpl; [done|]. inversion 1. by right.
  - inversion 1. by left.
Qed.

Lemma res_mapM_Raise_inv {A B} (f : A → res B) l e :
  res_mapM f l = Raise e → ∃ a, a ∈ l ∧ f a = Raise e.
Proof.
  induction l as [|a l IH]; simpl; [done|].
  destruct (f a) as [b|e'] eqn:Hfa; simpl.
  - destruct (res_mapM f l) as [bs|e'']; simpl; [done|].
    intros Heq. inversion Heq; subst.
    destruct IH as (a' & Hin & Ha'); [done|].
    exists a'. split; [by right|done].
  - intros Heq. inversion Heq; subst. exists a. split; [left|done].
Qed.

(** C3: a functional series whose name the pattern does not match, or
    matches without a task label, makes the rendering step raise
    ([AttributeError] or [TypeError] when nothing before it failed); the
    run step raises the same exception, leaves the file system and the log
    as they were and sets no [out_report]. *)
Theorem unparsable_series_is_fatal `{Externals}
    (self : SummaryInterface.obj SubjectSummary.input_spec) (w : world) (rt : runtime)
    (entries : list SubjectSummary.bold_entry) (entry : SubjectSummary.bold_entry)
    (bad : string) :
  SubjectSummary.bold (SummaryInterface.inputs self) = Defined entries →
  entry ∈ entries →
  SubjectSummary.first_file entry = Ok bad →
  (Re.search BIDS_NAME bad = None
   ∨ ∃ m, Re.search BIDS_NAME bad = Some m ∧ Re.groupdict m "task_id" = None) →
  ∃ e,
    SubjectSummary._generate_segment self w = Raise e
    ∧ (∀ status files,
         SubjectSummary.freesurfer_status (SummaryInterface.inputs self) w = Ok status →
         SubjectSummary.bold_series (SummaryInterface.inputs self) = Ok files →
         e = AttributeError ∨ e = TypeError)
    ∧ ∃ self',
        SubjectSummary._run_interface rt (self, w) = (Raise e, (self', w))
        ∧ SummaryInterface._results self' !! "out_report"
          = SummaryInterface._results self !! "out_report".
Proof.
  intros Hbold Hentry Hfirst Hbad.
  assert (raised (SubjectSummary.task_of bad) = true) as Hraised.
  { unfold SubjectSummary.task_of.
    destruct Hbad as [->|(m & -> & Hm)]; simpl; [done|]. by rewrite Hm. }
  assert (∃ e, SubjectSummary._generate_segment self w = Raise e
               ∧ (∀ status files,
                    SubjectSummary.freesurfer_status (SummaryInterface.inputs self) w
                    = Ok status →
                    SubjectSummary.bold_series (SummaryInterface.inputs self) = Ok files →
                    e = AttributeError ∨ e = TypeError)) as (e & Hseg & Hkind).
  { destruct (SubjectSummary.freesurfer_status (SummaryInterface.inputs self) w)
      as [status|e] eqn:Hst.
    2:{ exists e. split; [by apply generate_segment_Raise_status|done]. }
    destruct (SubjectSummary.bold_series (SummaryInterface.inputs self))
      as [files|e] eqn:Hfiles.
    2:{ exists e. split; [by eapply generate_segment_Raise_files|done]. }
    assert (bad ∈ files) as Hin.
    { unfold SubjectSummary.bold_series in Hfiles. rewrite Hbold in Hfiles.
      apply res_mapM_Forall2 in Hfiles.
      apply list_elem_of_lookup in Hentry as [i Hi].
      destruct (Forall2_lookup_l _ _ _ _ _ Hfiles Hi) as (file & Hfile & Hok).
      rewrite Hfirst in Hok. inversion Hok; subst.
      apply list_elem_of_lookup. by exists i. }
    pose proof (res_mapM_Raise _ _ _ Hin Hraised) as Hall.
    destruct (res_mapM SubjectSummary.task_of files) as [labels|e] eqn:Hlabels; [done|].
    exists e. split; [by eapply generate_segment_Raise_labels|].
    intros _ _ _ _.
    apply res_mapM_Raise_inv in Hlabels as (a & _ & Ha).
    by apply task_of_Raise in Ha. }
  exists e. split; [done|]. split; [done|].
  rewrite subject_run_interface_cases, run_interface_cases.
  destruct (SubjectSummary.subject_id (SummaryInterface.inputs self)) as [|sid] eqn:Hsid.
  - change (@SummaryInterface._generate_segment _ SubjectSummary.segment self w)
      with (SubjectSummary._generate_segment self w).
    rewrite Hseg. by exists self.
  - change (@SummaryInterface._generate_segment _ SubjectSummary.segment
              (SummaryInterface.set_result "subject_id" sid self) w)
      with (SubjectSummary._generate_segment
              (SummaryInterface.set_result "subject_id" sid self) w).
    rewrite <- (generate_segment_inputs self) by done.
    rewrite Hseg. eexists. split; [done|].
    simpl. by rewrite lookup_insert_ne.
Qed.

Lemma unparsable_series_is_fatal_witness :
  SubjectSummary._run_interface (H := example_externals) example_runtime
    (example_subject Undefined Undefined
       [SubjectSummary.OneFile "sub-01_task-rest_bold.nii.gz";
        SubjectSummary.OneFile "/data/bold.nii.gz"],
     example_world)
  = (Raise AttributeError,
     (example_subject Undefined Undefined
        [SubjectSummary.OneFile "sub-01_task-rest_bold.nii.gz";
         SubjectSummary.OneFile "/data/bold.nii.gz"],
      example_world)).
Proof.
  destruct (unparsable_series_is_fatal (H := example_externals)
    (example_subject Undefined Undefined
       [SubjectSummary.OneFile "sub-01_task-rest_bold.nii.gz";
        SubjectSummary.OneFile "/data/bold.nii.gz"])
    example_world example_runtime
    [SubjectSummary.OneFile "sub-01_task-rest_bold.nii.gz";
     SubjectSummary.OneFile "/data/bold.nii.gz"]
    (SubjectSummary.OneFile "/data/bold.nii.gz") "/data/bold.nii.gz")
    as (e & Hseg & _ & self' & Hrun & _).
  - reflexivity.
  - right. left.
  - reflexivity.
  - left. vm_compute. reflexivity.
  - vm_compute. reflexivity.
Defined.

(** The claim of C4 as it is written fails: a reconstruction that the
    wrapper would really run is reported as [Run by fMRIPrep], and the
    words [Run by pipeline] are nowhere in the segment. *)
Lemma run_by_pipeline_is_not_rendered :
  ReconAll_cmdline (Externals := example_externals) (fs example_world)
    "/fs" "sub-01" ["/data/sub-01/anat/sub-01_T1w.nii.gz"] "-noskullstrip"
  = Ok "recon-all -autorecon1 -noskullstrip -subjid sub-01"
  ∧ ∃ html,
      SubjectSummary._generate_segment (H := example_externals)
        (example_subject (Defined "/fs") (Defined "01") []) example_world = Ok html
      ∧ Py.contains html "Run by pipeline" = false
      ∧ Py.contains html "FreeSurfer reconstruction: Run by fMRIPrep" = true.
Proof.
  split; [vm_compute; reflexivity|].
  eexists. split; [vm_compute; reflexivity|].
  split; vm_compute; reflexivity.
Qed.

(** C4, amended: the status is [Not run] without a subjects directory;
    with one, and a command line obtained for the subject, it is
    [Pre-existing directory] when the command line starts with [echo] and
    [Run by fMRIPrep] otherwise.  There is no other status, and a rendered
    segment carries the status once, in its last item. *)
Theorem freesurfer_status_three_states `{Externals}
    (self : SummaryInterface.obj SubjectSummary.input_spec) (w : world) :
  let inp := SummaryInterface.inputs self in
  (SubjectSummary.subjects_dir inp = Undefined →
     SubjectSummary.freesurfer_status inp w = Ok "Not run")
  ∧ (∀ dir sid cmdline,
       SubjectSummary.subjects_dir inp = Defined dir →
       SubjectSummary.subject_id inp = Defined sid →
       ReconAll_cmdline (fs w) dir ("sub-" +:+ sid) (SubjectSummary.t1w inp)
         "-noskullstrip" = Ok cmdline →
       SubjectSummary.freesurfer_status inp w
       = Ok (if Py.startswith cmdline "echo"
             then "Pre-existing directory" else "Run by fMRIPrep"))
  ∧ (∀ status,
       SubjectSummary.freesurfer_status inp w = Ok status →
       status ∈ ["Not run"; "Pre-existing directory"; "Run by fMRIPrep"])
  ∧ (∀ html,
       SubjectSummary._generate_segment self w = Ok html →
       ∃ status n_bold tasks,
         SubjectSummary.freesurfer_status inp w = Ok status
         ∧ html = subject_segment inp status n_bold tasks).
Proof.
  intros inp. unfold SubjectSummary.freesurfer_status.
  split; [by intros ->|].
  split.
  { intros dir sid cmdline -> -> Hcmd. unfold SubjectSummary.str_add.
    rewrite (res_bind_Ok _ _ _ eq_refl), (res_bind_Ok _ _ _ Hcmd).
    by destruct (Py.startswith cmdline "echo"). }
  split.
  - intros status.
    destruct (SubjectSummary.subjects_dir inp) as [|dir].
    { intros [= <-]. rewrite !elem_of_cons. auto. }
    destruct (SubjectSummary.subject_id inp) as [|sid]; [done|].
    unfold SubjectSummary.str_add. rewrite (res_bind_Ok _ _ _ eq_refl).
    destruct (ReconAll_cmdline _ _ _ _ _) as [cmdline|] eqn:Hcmd; [|done].
    rewrite (res_bind_Ok _ _ _ eq_refl).
    destruct (Py.startswith cmdline "echo"); intros [= <-];
      rewrite !elem_of_cons; auto.
  - intros html Hseg.
    destruct (generate_segment_inv _ _ _ Hseg) as (status & files & labels & Hst & Hf & Hl).
    rewrite (generate_segment_Ok _ _ _ _ _ Hst Hf Hl) in Hseg.
    inversion Hseg; subst. by eexists _, _, _.
Qed.

Lemma freesurfer_status_three_states_witness :
  SubjectSummary.freesurfer_status (H := example_externals)
    (SummaryInterface.inputs (example_subject (Defined "/fs") (Defined "02") []))
    example_world
  = Ok "Pre-existing directory".
Proof.
  destruct (freesurfer_status_three_states (H := example_externals)
              (example_subject (Defined "/fs") (Defined "02") []) example_world)
    as (_ & Hdir & _).
  rewrite (Hdir "/fs" "02" "echo recon-all: nothing to do");
    [reflexivity|reflexivity|reflexivity|vm_compute; reflexivity].
Defined.




(** C9: the run step renders first.  When the rendering step returns, the
    segment is written to [report.html] in the working directory and to
    no other file, and [out_report] is that path (or the write is refused
    and nothing changes); when the rendering step raises, as that of the
    base class does, the object and the world are left as they were. *)
Theorem run_interface_renders_first {Inputs} `{!SummaryInterface.Segment Inputs}
    (self : SummaryInterface.obj Inputs) (w : world) (rt : runtime) :
  let fname := Posix.join (cwd rt) "report.html" in
  match SummaryInterface._generate_segment self w with
  | Ok segment =>
      if writable (fs w) fname then
        ∃ self' w',
          SummaryInterface._run_interface rt (self, w) = (Ok rt, (self', w'))
          ∧ files (fs w') = <[fname := segment]> (files (fs w))
          ∧ dirs (fs w') = dirs (fs w) ∧ trace w' = trace w
          ∧ SummaryInterface._results self'
            = <["out_report" := fname]> (SummaryInterface._results self)
          ∧ SummaryInterface.inputs self' = SummaryInterface.inputs self
      else SummaryInterface._run_interface rt (self, w) = (Raise OSError, (self, w))
  | Raise e => SummaryInterface._run_interface rt (self, w) = (Raise e, (self, w))
  end
  ∧ ∀ results,
      SummaryInterface._run_interface rt
        (SummaryInterface.Obj SummaryInterface.NoInputs results, w)
      = (Raise NotImplementedError,
         (SummaryInterface.Obj SummaryInterface.NoInputs results, w)).
Proof.
  intros fname. split.
  - rewrite run_interface_cases. fold fname.
    destruct (SummaryInterface._generate_segment self w) as [segment|e]; [|done].
    simpl. destruct (writable (fs w) fname); [|done].
    by eexists _, _.
  - intros results. by rewrite run_interface_cases.
Qed.

(** ** AboutSummary *)

Lemma append_empty_r s : s +:+ "" = s.
Proof.
  induction s as [|c s IH]; [done|].
  change (String c (s +:+ "") = String c s). by rewrite IH.
Qed.

Lemma has_shape_app p1 s1 p2 s2 :
  has_shape p1 s1 = true → has_shape p2 s2 = true →
  has_shape (p1 +:+ p2) (s1 +:+ s2) = true.
Proof.
  revert s1. induction p1 as [|p p1 IH]; intros [|c s1]; simpl; try done.
  intros [Hc Hrest]%andb_true_iff Hp2. rewrite Hc. simpl. by apply IH.
Qed.

Lemma padded_two_digits n : n < 100 → has_shape "DD" (Time.padded 2 n) = true.
Proof.
  intros Hn.
  assert (forallb (λ n, has_shape "DD" (Time.padded 2 n)) (seq 0 100) = true) as Hall
    by (vm_compute; reflexivity).
  rewrite List.forallb_forall in Hall. apply Hall, List.in_seq. lia.
Qed.

Lemma decimal_four_digits n :
  (1000 ≤ Z.of_nat n ≤ 9999)%Z → has_shape "DDDD" (Py.decimal n) = true.
Proof.
  intros Hn.
  assert (forallb (λ n, has_shape "DDDD" (Py.decimal n))
            (seq (Z.to_nat 1000) (Z.to_nat 9000)) = true) as Hall
    by (vm_compute; reflexivity).
  rewrite List.forallb_forall in Hall. apply Hall, List.in_seq. lia.
Qed.

(** C8: the segment is the template with the version and the command as
    they were passed and with the local time of the rendering, written
    year-month-day hour:minute:second and the offset from UTC as a sign
    and four digits; two renderings of the same inputs differ in nothing
    but this timestamp. *)
Theorem about_segment_contents (version command : string)
    (results : gmap string string) (w : world) :
  let self :=
    SummaryInterface.Obj (AboutSummary.Inputs (Defined version) (Defined command))
      results in
  let t := localtime w in
  let date := Time.strftime "%Y-%m-%d %H:%M:%S %z" t in
  let off := Z.abs_nat (tm_gmtoff t) in
  AboutSummary._generate_segment self w = Ok (about_html version command date)
  ∧ Py.contains (about_html version command date) version = true
  ∧ Py.contains (about_html version command date) command = true
  ∧ Py.contains (about_html version command date) date = true
  ∧ date
    = Py.decimal (tm_year t) +:+ "-" +:+ Time.padded 2 (tm_mon t) +:+ "-"
        +:+ Time.padded 2 (tm_mday t) +:+ " " +:+ Time.padded 2 (tm_hour t) +:+ ":"
        +:+ Time.padded 2 (tm_min t) +:+ ":" +:+ Time.padded 2 (tm_sec t) +:+ " "
        +:+ (if (tm_gmtoff t <? 0)%Z then "-" else "+")
        +:+ Time.padded 2 (off / 3600) +:+ Time.padded 2 ((off / 60) mod 60)
  ∧ (calendar_time t → has_shape "DDDD-DD-DD DD:DD:DD +DDDD" date = true)
  ∧ (∀ w',
       AboutSummary._generate_segment self w'
       = Ok (about_html version command
               (Time.strftime "%Y-%m-%d %H:%M:%S %z" (localtime w')))).
Proof.
  intros self t date off.
  assert (∀ w', AboutSummary._generate_segment self w'
                = Ok (about_html version command
                        (Time.strftime "%Y-%m-%d %H:%M:%S %z" (localtime w')))) as Hseg.
  { intros w'. unfold AboutSummary._generate_segment.
    apply (format_ABOUT_TEMPLATE (Defined version) (Defined command)). }
  assert (date
    = Py.decimal (tm_year t) +:+ "-" +:+ Time.padded 2 (tm_mon t) +:+ "-"
        +:+ Time.padded 2 (tm_mday t) +:+ " " +:+ Time.padded 2 (tm_hour t) +:+ ":"
        +:+ Time.padded 2 (tm_min t) +:+ ":" +:+ Time.padded 2 (tm_sec t) +:+ " "
        +:+ (if (tm_gmtoff t <? 0)%Z then "-" else "+")
        +:+ Time.padded 2 (off / 3600) +:+ Time.padded 2 ((off / 60) mod 60)) as Hdate.
  { subst date off. cbn [Time.strftime]. unfold Time.conversion. simpl Ascii.eqb.
    cbv iota. by rewrite append_empty_r. }
  split; [apply Hseg|].
  split; [apply (contains_app
            (TAB +:+ "<ul>" +:+ NL +:+ TAB +:+ TAB +:+ "<li>fMRIPrep version: ") version)|].
  split.
  { apply (contains_app_l (TAB +:+ "<ul>" +:+ NL +:+ TAB +:+ TAB +:+ "<li>fMRIPrep version: ")).
    apply (contains_app_l version).
    apply (contains_app
             ("</li>" +:+ NL +:+ TAB +:+ TAB +:+ "<li>fMRIPrep command: <code>") command). }
  split.
  { apply (contains_app_l (TAB +:+ "<ul>" +:+ NL +:+ TAB +:+ TAB +:+ "<li>fMRIPrep version: ")).
    apply (contains_app_l version).
    apply (contains_app_l
             ("</li>" +:+ NL +:+ TAB +:+ TAB +:+ "<li>fMRIPrep command: <code>")).
    apply (contains_app_l command).
    apply (contains_app
             ("</code></li>" +:+ NL +:+ TAB +:+ TAB +:+ "<li>Date preprocessed: ") date). }
  split; [exact Hdate|].
  split; [|exact Hseg].
  intros (Hyear & Hmon & Hmday & Hhour & Hmin & Hsec & Hoff). rewrite Hdate.
  assert (Z.of_nat off < 86400)%Z as Hoff' by (subst off; lia).
  apply (has_shape_app "DDDD"); [by apply decimal_four_digits|].
  apply (has_shape_app "-" "-"); [done|].
  apply (has_shape_app "DD"); [apply padded_two_digits; lia|].
  apply (has_shape_app "-" "-"); [done|].
  apply (has_shape_app "DD"); [apply padded_two_digits; lia|].
  apply (has_shape_app " " " "); [done|].
  apply (has_shape_app "DD"); [apply padded_two_digits; lia|].
  apply (has_shape_app ":" ":"); [done|].
  apply (has_shape_app "DD"); [apply padded_two_digits; lia|].
  apply (has_shape_app ":" ":"); [done|].
  apply (has_shape_app "DD"); [apply padded_two_digits; lia|].
  apply (has_shape_app " " " "); [done|].
  apply (has_shape_app "+"); [by destruct (tm_gmtoff t <? 0)%Z|].
  apply (has_shape_app "DD" _ "DD"); apply padded_two_digits.
  - apply Nat.Div0.div_lt_upper_bound. lia.
  - pose proof (Nat.mod_upper_bound (off / 60) 60). lia.
Qed.

Lemma about_segment_contents_witness :
  has_shape "DDDD-DD-DD DD:DD:DD +DDDD"
    (Time.strftime "%Y-%m-%d %H:%M:%S %z" example_time) = true.
Proof.
  destruct (about_segment_contents "24.0.1" "fmripost-aroma /data /out participant"
              ∅ example_world)
    as (_ & _ & _ & _ & _ & Hshape & _).
  apply Hshape. unfold calendar_time. simpl. lia.
Defined.

Example about_segment_example :
  AboutSummary._generate_segment
    (SummaryInterface.Obj (AboutSummary.Inputs (Defined "24.0.1") (Defined "fmripost-aroma /data /out participant")) ∅)
    example_world
  = Ok (about_html "24.0.1" "fmripost-aroma /data /out participant"
          "2024-03-07 09:05:00 -0530").
Proof. vm_compute. reflexivity. Qed.

(** ** MELODICRPT *)

#[local] Arguments Py.replace : simpl never.
#[local] Arguments Py.startswith : simpl never.
#[local] Arguments Posix.join : simpl never.
#[local] Arguments Posix.abspath : simpl never.
#[local] Arguments Posix.isabs : simpl never.
#[local] Arguments path_exists : simpl never.

Section melodic.
Context `{Externals}.
Import MELODICRPT.

Lemma melodic_generate_report_cases (self : obj) (w : world) :
  _generate_report (self, w)
  = match _melodic_dir self, mi_in_files (inputs self), _out_report self with
    | None, _, _ => (Raise AttributeError, (self, w))
    | Some _, [], _ => (Raise TypeError, (self, w))
    | Some _, _ :: _, None => (Raise AttributeError, (self, w))
    | Some melodic_dir, in_file :: _, Some out_file =>
        let args :=
          PlotArgs (Defined melodic_dir) in_file (Some (mi_tr_sec (inputs self)))
            out_file (mi_compress_report (inputs self))
            (mi_report_mask (inputs self)) None in
        let '(r, fs') := plot_melodic_components args (fs w) in
        (r, (self, with_fs (with_events w [PlotCalled args]) fs'))
    end.
Proof.
  unfold _generate_report. run_M.
  destruct (_melodic_dir self) as [melodic_dir|]; [|done].
  destruct (mi_in_files (inputs self)) as [|in_file rest]; [done|].
  destruct (_out_report self) as [out_file|]; [|done].
  simpl. destruct (plot_melodic_components _ (fs w)); done.
Qed.

Lemma melodic_post_run_hook_cases (self : obj) (rt : runtime) (w : world) :
  _post_run_hook rt (self, w)
  = let '(r, fs') := MELODIC_post_run_hook rt (fs w) in
    match r with
    | Raise e => (Raise e, (self, with_fs w fs'))
    | Ok rt' =>
        if negb (generate_report self) then (Ok rt', (self, with_fs w fs'))
        else
          let melodic_dir :=
            resolved_melodic_dir (getcwd w) (cwd rt') (mi_out_dir (inputs self)) in
          let out_report :=
            resolved_out_report (getcwd w) (cwd rt') (mi_out_report (inputs self)) in
          let w1 := with_events (with_fs w fs') [LogInfo "Generating report for MELODIC."] in
          if negb (path_exists fs' (Posix.join melodic_dir "melodic_mix")) then
            let path := Py.replace out_report ".svg" ".html" in
            let self' := Obj (inputs self) (generate_report self) (Some path) (Some melodic_dir) in
            let w2 :=
              with_events w1
                [LogWarning "MELODIC outputs not found, assuming it didn't converge."] in
            if writable fs' path
            then (Ok rt', (self', after_write w2 path SNIPPET))
            else (Raise OSError, (self', w2))
          else
            let self' :=
              Obj (inputs self) (generate_report self) (Some out_report) (Some melodic_dir) in
            match _generate_report (self', w1) with
            | (Ok _, s) => (Ok rt', s)
            | (Raise e, s) => (Raise e, s)
            end
    end.
Proof.
  unfold _post_run_hook, set_out_report, set_melodic_dir. run_M.
  destruct (MELODIC_post_run_hook rt (fs w)) as [[rt'|e] fs']; [|done].
  simpl. destruct (generate_report self) eqn:Hgen; [|done].
  simpl. unfold resolved_out_report, resolved_melodic_dir.
  destruct (Posix.isabs (mi_out_report (inputs self))) eqn:Habs; simpl; rewrite ?Hgen.
  - destruct (path_exists fs' _); simpl; [done|].
    destruct (writable fs' _); done.
  - destruct (path_exists fs' _); simpl; [done|].
    destruct (writable fs' _); done.
Qed.

(** C5: an instance built with [generate_report=False] does nothing after
    the hook of the tool: the outcome and the file system are those of
    that hook, nothing is logged, the plotting routine is not called,
    [_out_report] stays [None], and the outputs listed are those of the
    tool, with no [out_report] added. *)
Theorem melodic_without_report (kwargs : MELODIC_inputs) (rt : runtime) (w : world) :
  let self := __init__ false kwargs in
  _post_run_hook rt (self, w)
  = (let '(outcome, fs') := MELODIC_post_run_hook rt (fs w) in
     (outcome, (self, with_fs w fs')))
  ∧ (∀ outcome self' w',
       _post_run_hook rt (self, w) = (outcome, (self', w')) →
       self' = self ∧ trace w' = trace w ∧ _out_report self' = None
       ∧ (outcome, fs w') = MELODIC_post_run_hook rt (fs w))
  ∧ _list_outputs self
    = match MELODIC_list_outputs kwargs with
      | Raise NotImplementedError => Ok ∅
      | listed => listed
      end.
Proof.
  intros self.
  assert (_post_run_hook rt (self, w)
          = (let '(outcome, fs') := MELODIC_post_run_hook rt (fs w) in
             (outcome, (self, with_fs w fs')))) as Hhook.
  { rewrite melodic_post_run_hook_cases.
    destruct (MELODIC_post_run_hook rt (fs w)) as [[rt'|e] fs']; done. }
  split; [exact Hhook|]. split.
  - intros outcome self' w'. rewrite Hhook.
    destruct (MELODIC_post_run_hook rt (fs w)) as [outcome' fs'].
    intros [= <- <- <-]. done.
  - unfold _list_outputs. simpl.
    destruct (MELODIC_list_outputs kwargs) as [listed|[]]; done.
Qed.

Lemma length_append s t : String.length (s +:+ t) = String.length s + String.length t.
Proof.
  induction s as [|c s IH]; [done|]. rewrite append_cons. simpl. by rewrite IH.
Qed.

Lemma slice_from_append s t : Py.slice_from (String.length s) (s +:+ t) = t.
Proof.
  induction s as [|c s IH]; [by destruct t|]. rewrite append_cons. simpl. exact IH.
Qed.

Lemma endswith_append s suffix : Py.endswith (s +:+ suffix) suffix = true.
Proof.
  unfold Py.endswith. rewrite length_append.
  replace (String.length s + String.length suffix - String.length suffix)
    with (String.length s) by lia.
  rewrite slice_from_append, String.eqb_refl, andb_true_r.
  apply Nat.leb_le. lia.
Qed.

(** C6, amended: with [generate_report=True] and no [melodic_mix] in the
    resolved directory, when the resolved report path is [stem.svg] with
    no other [.svg] in it and [stem.html] can be written, the hook
    returns normally, the notice is the content of [stem.html], only the
    two log records are added (the plotting routine is not called), and
    the [out_report] output is [stem.html]. *)
Theorem melodic_fallback_report (self : obj) (rt rt' : runtime) (w : world)
    (fs' : filesystem) (stem : string) :
  generate_report self = true →
  MELODIC_post_run_hook rt (fs w) = (Ok rt', fs') →
  let melodic_dir :=
    resolved_melodic_dir (getcwd w) (cwd rt') (mi_out_dir (inputs self)) in
  path_exists fs' (Posix.join melodic_dir "melodic_mix") = false →
  resolved_out_report (getcwd w) (cwd rt') (mi_out_report (inputs self))
  = stem +:+ ".svg" →
  Py.contains stem ".svg" = false →
  writable fs' (stem +:+ ".html") = true →
  let self' := Obj (inputs self) true (Some (stem +:+ ".html")) (Some melodic_dir) in
  let w' :=
    after_write
      (with_events
         (with_events (with_fs w fs') [LogInfo "Generating report for MELODIC."])
         [LogWarning "MELODIC outputs not found, assuming it didn't converge."])
      (stem +:+ ".html") SNIPPET in
  _post_run_hook rt (self, w) = (Ok rt', (self', w'))
  ∧ files (fs w') = <[stem +:+ ".html" := "<h4>MELODIC did not converge, no output</h4>"]> (files fs')
  ∧ Py.endswith (stem +:+ ".html") ".html" = true
  ∧ trace w'
    = trace w ++ [LogInfo "Generating report for MELODIC.";
                  LogWarning "MELODIC outputs not found, assuming it didn't converge."]
  ∧ _list_outputs self'
    = match MELODIC_list_outputs (inputs self) with
      | Ok listed => Ok (<["out_report" := stem +:+ ".html"]> listed)
      | Raise NotImplementedError => Ok {["out_report" := stem +:+ ".html"]}
      | Raise e => Raise e
      end.
Proof.
  intros Hgen Hbase melodic_dir Hmix Hpath Hstem Hw self' w'.
  split; [|split; [|split; [|split]]].
  - rewrite melodic_post_run_hook_cases, Hbase, Hgen. simpl. fold melodic_dir.
    rewrite Hmix, Hpath, (replace_svg_suffix _ Hstem). simpl. by rewrite Hw.
  - reflexivity.
  - apply endswith_append.
  - simpl. by rewrite <- app_assoc.
  - unfold _list_outputs. simpl.
    destruct (MELODIC_list_outputs (inputs self)) as [listed|[]]; done.
Qed.

End melodic.

Lemma melodic_without_report_witness :
  MELODICRPT._post_run_hook (H := example_externals) example_runtime
    (MELODICRPT.__init__ false (example_melodic "melodic_reportlet.svg"), example_world)
  = (Ok example_runtime,
     (MELODICRPT.__init__ false (example_melodic "melodic_reportlet.svg"),
      example_world))
  ∧ MELODICRPT._list_outputs (H := example_externals)
      (MELODICRPT.__init__ false (example_melodic "melodic_reportlet.svg"))
    = Ok {[ "out_dir" := "/work" ]}.
Proof.
  destruct (melodic_without_report (H := example_externals)
              (example_melodic "melodic_reportlet.svg") example_runtime example_world)
    as (Hhook & _ & Hlist).
  split; [rewrite Hhook|rewrite Hlist]; reflexivity.
Defined.

Lemma melodic_fallback_report_witness :
  MELODICRPT._post_run_hook (H := example_externals) example_runtime
    (MELODICRPT.__init__ true (example_melodic "melodic_reportlet.svg"), example_world)
  = (Ok example_runtime,
     (MELODICRPT.Obj (example_melodic "melodic_reportlet.svg") true
        (Some "/work/melodic_reportlet.html") (Some "/work"),
      after_write
        (with_events
           (with_events (with_fs example_world example_fs)
              [LogInfo "Generating report for MELODIC."])
           [LogWarning "MELODIC outputs not found, assuming it didn't converge."])
        "/work/melodic_reportlet.html" MELODICRPT.SNIPPET)).
Proof.
  apply (melodic_fallback_report (H := example_externals)
           (MELODICRPT.__init__ true (example_melodic "melodic_reportlet.svg"))
           example_runtime example_runtime example_world example_fs
           "/work/melodic_reportlet");
    vm_compute; reflexivity.
Defined.

(** The claim of C6 as it is written fails: a report configured as
    [melodic_reportlet.png] has no [.svg] to rewrite, and the notice is
    written to the [.png] path. *)
Lemma fallback_keeps_other_extension :
  MELODICRPT._post_run_hook (H := example_externals) example_runtime
    (MELODICRPT.__init__ true (example_melodic "melodic_reportlet.png"), example_world)
  = (Ok example_runtime,
     (MELODICRPT.Obj (example_melodic "melodic_reportlet.png") true
        (Some "/work/melodic_reportlet.png") (Some "/work"),
      after_write
        (with_events example_world
           [LogInfo "Generating report for MELODIC.";
            LogWarning "MELODIC outputs not found, assuming it didn't converge."])
        "/work/melodic_reportlet.png" MELODICRPT.SNIPPET))
  ∧ Py.endswith "/work/melodic_reportlet.png" ".html" = false.
Proof. split; vm_compute; reflexivity. Qed.


(** ** ICAAROMARPT *)

Section aroma.
Context `{Externals}.
Import ICAAROMARPT.

Lemma aroma_generate_report_cases (self : obj) (w : world) :
  _generate_report (self, w)
  = match _noise_components_file self with
    | None => (Raise AttributeError, (self, w))
    | Some noise_components_file =>
        let args :=
          PlotArgs (ai_melodic_dir (inputs self)) (ai_in_file (inputs self)) None
            (ai_out_report (inputs self)) (ai_compress_report (inputs self))
            (ai_report_mask (inputs self)) (Some noise_components_file) in
        let '(r, fs') := plot_melodic_components args (fs w) in
        (r, (self, with_fs (with_events w [PlotCalled args]) fs'))
    end.
Proof.
  unfold _generate_report. run_M.
  destruct (_noise_components_file self) as [noise|]; [|done].
  simpl. destruct (plot_melodic_components _ (fs w)); done.
Qed.

(** C7: when a report is generated, the outputs of the tool are
    collected first, and the plotting routine is then called once, with
    [classified_motion_ICs.txt] joined to the [out_dir] of those outputs
    as its [noise_components_file]. *)
Theorem aroma_noise_components_file (self : obj) (rt rt' : runtime) (w : world)
    (outputs : ICA_AROMA_outputs) (out_dir : string) (fs' : filesystem) :
  generate_report self = true →
  ICA_AROMA_aggregate_outputs (inputs self) rt (fs w) = Ok outputs →
  ao_out_dir outputs = Defined out_dir →
  ICA_AROMA_post_run_hook rt (fs w) = (Ok rt', fs') →
  let noise := Posix.join out_dir "classified_motion_ICs.txt" in
  let args :=
    PlotArgs (ai_melodic_dir (inputs self)) (ai_in_file (inputs self)) None
      (ai_out_report (inputs self)) (ai_compress_report (inputs self))
      (ai_report_mask (inputs self)) (Some noise) in
  let self' :=
    Obj (inputs self) true
      (Some (resolved_out_report (getcwd w) (cwd rt') (ai_out_report (inputs self))))
      (Some noise) in
  let w' :=
    with_events (with_fs w fs')
      [OutputsAggregated; LogInfo "Generating report for ICA AROMA"; PlotCalled args] in
  pa_noise_components_file args
  = Some (Posix.join out_dir "classified_motion_ICs.txt")
  ∧ _post_run_hook rt (self, w)
    = (let '(r, fs'') := plot_melodic_components args fs' in
       (match r with Ok _ => Ok rt' | Raise e => Raise e end,
        (self', with_fs w' fs''))).
Proof.
  intros Hgen Hagg Hdir Hbase noise args self' w'. split; [done|].
  unfold _post_run_hook, ReportCapableInterface_post_run_hook,
    set_noise_components_file, set_out_report.
  run_M. rewrite Hagg. simpl. rewrite Hdir. simpl. rewrite Hbase. simpl.
  rewrite Hgen. simpl. rewrite ?Hgen.
  unfold resolved_out_report in self'.
  destruct (Posix.isabs (ai_out_report (inputs self))) eqn:Habs; simpl;
    rewrite aroma_generate_report_cases; simpl; rewrite ?Hgen;
    fold noise; fold args; subst self' w'; rewrite ?Habs;
    unfold with_events, with_fs; simpl; rewrite <- !app_assoc; simpl;
    destruct (plot_melodic_components args fs') as [[[]|e] fs'']; done.
Qed.

End aroma.

Lemma aroma_noise_components_file_witness :
  ICAAROMARPT._post_run_hook (H := example_externals) example_runtime
    (ICAAROMARPT.__init__ true example_aroma, example_world)
  = (Ok example_runtime,
     (ICAAROMARPT.Obj example_aroma true (Some "/work/ica_aroma_reportlet.svg")
        (Some "/work/out/classified_motion_ICs.txt"),
      World (FileSystem {["ica_aroma_reportlet.svg" := "<svg></svg>"]}
               (dirs example_fs) (writable example_fs))
        "/work" example_time
        [OutputsAggregated; LogInfo "Generating report for ICA AROMA";
         PlotCalled
           (PlotArgs (Defined "/work/melodic") "/data/sub-01_task-rest_bold.nii.gz"
              None "ica_aroma_reportlet.svg" CompressAuto Undefined
              (Some "/work/out/classified_motion_ICs.txt"))])).
Proof.
  destruct (aroma_noise_components_file (H := example_externals)
              (ICAAROMARPT.__init__ true example_aroma)
              example_runtime example_runtime example_world
              (ICAAROMAOutputs (Defined "/work/out") ∅) "/work/out" example_fs)
    as [_ Hhook]; [reflexivity..|].
  rewrite Hhook. vm_compute. reflexivity.
Defined.

(** * Further properties *)

(** ** The matcher *)

Lemma run_Star r1 pos s gs k :
  Re.run (Re.Star r1) pos s gs k = star_loop r1 k (String.length s) pos s gs.
Proof. reflexivity. Qed.

Lemma run_Plus r1 pos s gs k :
  Re.run (Re.Plus r1) pos s gs k
  = Re.run r1 pos s gs (fun pos' s' gs' => star_loop r1 k (String.length s') pos' s' gs').
Proof. reflexivity. Qed.

Lemma run_Seq r1 r2 pos s gs k :
  Re.run (Re.Seq r1 r2) pos s gs k
  = Re.run r1 pos s gs (fun pos' s' gs' => Re.run r2 pos' s' gs' k).
Proof. reflexivity. Qed.

Lemma run_Opt r1 pos s gs k :
  Re.run (Re.Opt r1) pos s gs k
  = match Re.run r1 pos s gs k with Some m => Some m | None => k pos s gs end.
Proof. reflexivity. Qed.

Lemma run_Group name r1 pos s gs k :
  Re.run (Re.Group name r1) pos s gs k
  = Re.run r1 pos s gs
      (fun pos' s' gs' =>
         k pos' s' match name with
                   | Some n => (n, Re.take (pos' - pos) s) :: gs'
                   | None => gs'
                   end).
Proof. reflexivity. Qed.

Lemma run_Lit c pos s gs k :
  Re.run (Re.Lit c) pos s gs k
  = match s with
    | String a s' => if Ascii.eqb a c then k (S pos) s' gs else None
    | EmptyString => None
    end.
Proof. reflexivity. Qed.

Lemma run_Class rs pos s gs k :
  Re.run (Re.Class rs) pos s gs k
  = match s with
    | String a s' => if Re.in_class rs a then k (S pos) s' gs else None
    | EmptyString => None
    end.
Proof. reflexivity. Qed.

Lemma run_Dot pos s gs k :
  Re.run Re.Dot pos s gs k
  = match s with
    | String a s' => if Ascii.eqb a (ascii_of_nat 10) then None else k (S pos) s' gs
    | EmptyString => None
    end.
Proof. reflexivity. Qed.

Lemma star_loop_S r1 k fuel pos s gs :
  star_loop r1 k (S fuel) pos s gs
  = match Re.run r1 pos s gs
            (fun pos' s' gs' =>
               if pos <? pos' then star_loop r1 k fuel pos' s' gs' else None) with
    | Some m => Some m
    | None => k pos s gs
    end.
Proof. reflexivity. Qed.

Lemma take_append a b : Re.take (String.length a) (a +:+ b) = a.
Proof.
  induction a as [|c a IH]; [by destruct b|].
  rewrite append_cons. simpl. by rewrite IH.
Qed.

(** A literal word is matched character by character. *)
Lemma run_word key tail pos s gs k :
  Re.run (Re.word key tail) pos (key +:+ s) gs k
  = Re.run tail (pos + String.length key) s gs k.
Proof.
  revert pos. induction key as [|c key IH]; intros pos.
  - simpl. by rewrite Nat.add_0_r.
  - rewrite append_cons. cbn [Re.word]. rewrite run_Seq, run_Lit, Ascii.eqb_refl, IH.
    simpl. f_equal. lia.
Qed.

Lemma startswith_cons b s a p :
  Py.startswith (String b s) (String a p)
  = if Ascii.eqb a b then Py.startswith s p else false.
Proof. reflexivity. Qed.

Lemma run_word_fail key tail pos s gs k :
  Py.startswith s key = false → Re.run (Re.word key tail) pos s gs k = None.
Proof.
  revert pos s. induction key as [|c key IH]; intros pos s; [done|].
  cbn [Re.word]. rewrite run_Seq, run_Lit.
  destruct s as [|a s]; [done|]. rewrite startswith_cons, (Ascii.eqb_sym a c).
  destruct (Ascii.eqb c a); [|done]. apply IH.
Qed.

(** A greedy run over [[a-zA-Z0-9]] takes every such character when the
    rest of the pattern matches after them. *)
Lemma run_alnum pos s gs k :
  Re.run alnum pos s gs k
  = match s with
    | String a s' => if is_alnum a then k (S pos) s' gs else None
    | EmptyString => None
    end.
Proof. reflexivity. Qed.

Lemma star_alnum_max k label rest fuel pos gs m :
  all_alnum label = true → starts_alnum rest = false →
  String.length label ≤ fuel →
  k (pos + String.length label) rest gs = Some m →
  star_loop alnum k fuel pos (label +:+ rest) gs = Some m.
Proof.
  revert fuel pos. induction label as [|c label IH]; intros fuel pos Hall Hrest Hfuel Hk.
  - simpl in Hk. rewrite Nat.add_0_r in Hk. rewrite append_empty_l.
    destruct fuel as [|fuel]; [done|].
    rewrite star_loop_S, run_alnum.
    destruct rest as [|a rest]; [done|]. simpl in Hrest. by rewrite Hrest.
  - simpl in Hall. apply andb_true_iff in Hall as [Hc Hall].
    destruct fuel as [|fuel]; [simpl in Hfuel; lia|].
    rewrite append_cons, star_loop_S, run_alnum, Hc.
    assert ((pos <? S pos) = true) as -> by (apply Nat.ltb_lt; lia).
    rewrite (IH fuel (S pos)); [done|done|done|simpl in Hfuel; lia|].
    rewrite <- Hk. f_equal. simpl. lia.
Qed.

Lemma plus_alnum_max k label rest pos gs m :
  is_label label = true → starts_alnum rest = false →
  k (pos + String.length label) rest gs = Some m →
  Re.run (Re.Plus alnum) pos (label +:+ rest) gs k = Some m.
Proof.
  unfold is_label. intros [Hall Hne]%andb_true_iff Hrest Hk.
  destruct label as [|c label]; [done|].
  simpl in Hall. apply andb_true_iff in Hall as [Hc Hall].
  rewrite run_Plus, append_cons, run_alnum, Hc.
  apply star_alnum_max; [done|done| |].
  - rewrite length_append. lia.
  - rewrite <- Hk. f_equal. simpl. lia.
Qed.

(** An entity that is there is matched, and one that is not is skipped. *)
Lemma run_entity_match name key label rest pos gs k m :
  is_label label = true → starts_alnum rest = false →
  k (pos + 1 + String.length key + String.length label) rest
    ((name, key +:+ label) :: gs) = Some m →
  Re.run (entity name key) pos ("_" +:+ key +:+ label +:+ rest) gs k = Some m.
Proof.
  intros Hlabel Hrest Hk. unfold entity.
  rewrite run_Opt, run_Group, run_Seq.
  change ("_" +:+ key +:+ label +:+ rest) with (String "_" (key +:+ label +:+ rest)).
  rewrite run_Lit, Ascii.eqb_refl, run_Group, run_word.
  rewrite (plus_alnum_max _ label rest _ _ m); [done|done|done|].
  rewrite <- Hk. f_equal; [lia|]. do 2 f_equal.
  replace (S pos + String.length key + String.length label - S pos)
    with (String.length (key +:+ label)) by (rewrite length_append; lia).
  assert (key +:+ label +:+ rest = (key +:+ label) +:+ rest) as ->.
  { clear. induction key as [|c key IH]; [done|]. rewrite !append_cons. by rewrite IH. }
  apply take_append.
Qed.

Lemma run_entity_skip name key s pos gs k :
  Py.startswith s ("_" +:+ key) = false →
  Re.run (entity name key) pos s gs k = k pos s gs.
Proof.
  intros Hs. unfold entity. rewrite run_Opt, run_Group, run_Seq, run_Lit.
  destruct s as [|a s]; [done|].
  change ("_" +:+ key) with (String "_" key) in Hs. rewrite startswith_cons in Hs.
  rewrite (Ascii.eqb_sym a "_").
  destruct (Ascii.eqb "_" a); [|done].
  by rewrite run_Group, run_word_fail.
Qed.

(** Whatever a pattern matches, the rest of the pattern goes on with the
    groups it had, and with new groups of this pattern only. *)
Lemma star_loop_sound r1 k m :
  (∀ pos s gs k' m',
     Re.run r1 pos s gs k' = Some m' →
     ∃ pos' s' extra,
       k' pos' s' (extra ++ gs) = Some m' ∧ Forall (λ g, g.1 ∈ group_names r1) extra) →
  ∀ fuel pos s gs,
    star_loop r1 k fuel pos s gs = Some m →
    ∃ pos' s' extra,
      k pos' s' (extra ++ gs) = Some m ∧ Forall (λ g, g.1 ∈ group_names r1) extra.
Proof.
  intros IHr. induction fuel as [|fuel IH]; intros pos s gs Hrun.
  - exists pos, s, []. by split.
  - rewrite star_loop_S in Hrun.
    destruct (Re.run r1 pos s gs _) as [m'|] eqn:Hr1.
    + inversion Hrun; subst m'.
      apply IHr in Hr1 as (pos1 & s1 & extra1 & Hk1 & Hnames1).
      destruct (pos <? pos1); [|done].
      apply IH in Hk1 as (pos2 & s2 & extra2 & Hk2 & Hnames2).
      exists pos2, s2, (extra2 ++ extra1). rewrite <- app_assoc.
      split; [done|]. by apply Forall_app.
    + exists pos, s, []. by split.
Qed.

Lemma run_sound r pos s gs k m :
  Re.run r pos s gs k = Some m →
  ∃ pos' s' extra,
    k pos' s' (extra ++ gs) = Some m ∧ Forall (λ g, g.1 ∈ group_names r) extra.
Proof.
  revert pos s gs k m.
  induction r as [|c| |rs|r1 IH1 r2 IH2|r1 IH1|r1 IH1|r1 IH1|name r1 IH1];
    intros pos s gs k m Hrun.
  - simpl in Hrun. destruct (pos =? 0); [|done]. exists pos, s, []. by split.
  - rewrite run_Lit in Hrun. destruct s as [|a s]; [done|].
    destruct (Ascii.eqb a c); [|done]. exists (S pos), s, []. by split.
  - rewrite run_Dot in Hrun. destruct s as [|a s]; [done|].
    destruct (Ascii.eqb a _); [done|]. exists (S pos), s, []. by split.
  - rewrite run_Class in Hrun. destruct s as [|a s]; [done|].
    destruct (Re.in_class rs a); [|done]. exists (S pos), s, []. by split.
  - rewrite run_Seq in Hrun.
    apply IH1 in Hrun as (pos1 & s1 & extra1 & Hk1 & Hnames1).
    apply IH2 in Hk1 as (pos2 & s2 & extra2 & Hk2 & Hnames2).
    exists pos2, s2, (extra2 ++ extra1). rewrite <- app_assoc.
    split; [done|]. simpl. apply Forall_app. split.
    + eapply Forall_impl; [exact Hnames2|]. intros g Hg. apply elem_of_app. by right.
    + eapply Forall_impl; [exact Hnames1|]. intros g Hg. apply elem_of_app. by left.
  - rewrite run_Opt in Hrun.
    destruct (Re.run r1 pos s gs k) as [m'|] eqn:Hr1.
    + inversion Hrun; subst m'. by apply IH1 in Hr1.
    + exists pos, s, []. by split.
  - rewrite run_Star in Hrun.
    exact (star_loop_sound r1 k m IH1 _ _ _ _ Hrun).
  - rewrite run_Plus in Hrun.
    apply IH1 in Hrun as (pos1 & s1 & extra1 & Hk1 & Hnames1).
    destruct (star_loop_sound r1 k m IH1 _ _ _ _ Hk1)
      as (pos2 & s2 & extra2 & Hk2 & Hnames2).
    exists pos2, s2, (extra2 ++ extra1). rewrite <- app_assoc.
    split; [done|]. by apply Forall_app.
  - rewrite run_Group in Hrun.
    apply IH1 in Hrun as (pos1 & s1 & extra1 & Hk1 & Hnames1).
    destruct name as [n|].
    + exists pos1, s1, ((n, Re.take (pos1 - pos) s) :: extra1). split; [done|].
      simpl. constructor; [left|].
      eapply Forall_impl; [exact Hnames1|]. intros g Hg. by right.
    + by exists pos1, s1, extra1.
Qed.

Lemma run_entity_total name key k :
  total_k k → total_k (fun pos s gs => Re.run (entity name key) pos s gs k).
Proof.
  intros Hk pos s gs. unfold entity. rewrite run_Opt.
  destruct (Re.run _ pos s gs k); [by eexists|apply Hk].
Qed.

Lemma group_lookup_extra extra gs name :
  Forall (λ g : string * string, g.1 ≠ name) extra →
  Re.group_lookup (extra ++ gs) name = Re.group_lookup gs name.
Proof.
  induction 1 as [|[n v] extra Hn _ IH]; [done|].
  simpl in *. destruct (String.eqb_spec n name); [done|]. exact IH.
Qed.

Lemma run_after_task pos s gs (k : nat → string → Re.groups → option Re.match_object) :
  (∀ pos' s' gs', k pos' s' gs' = Some (Re.MatchObject 0 pos' gs')) →
  ∃ m,
    Re.run after_task pos s gs k = Some m
    ∧ ∀ name, name ∉ ["acq_id"; "rec_id"; "run_id"] →
        Re.groupdict m name = Re.group_lookup gs name.
Proof.
  intros Hk.
  assert (total_k k) as Htotal by (intros ???; rewrite Hk; by eexists).
  assert (is_Some (Re.run after_task pos s gs k)) as [m Hm].
  { unfold after_task. rewrite run_Seq.
    apply (run_entity_total _ _ (fun pos' s' gs' => Re.run _ pos' s' gs' k)).
    intros pos1 s1 gs1. rewrite run_Seq.
    apply (run_entity_total _ _ (fun pos' s' gs' => Re.run _ pos' s' gs' k)).
    by apply run_entity_total. }
  exists m. split; [done|]. intros name Hname.
  apply run_sound in Hm as (pos' & s' & extra & Hm & Hnames).
  rewrite Hk in Hm. inversion Hm; subst m. unfold Re.groupdict. simpl.
  apply group_lookup_extra.
  eapply Forall_impl; [exact Hnames|]. intros g Hg Heq. apply Hname.
  change (g.1 ∈ ["acq_id"; "rec_id"; "run_id"]) in Hg. by rewrite <- Heq.
Qed.

(** ** The naming pattern on file names *)

Lemma BIDS_NAME_parts : BIDS_NAME = Re.Seq Re.Bol (Re.Seq dir_part after_dir).
Proof. reflexivity. Qed.

Lemma search_from_unfold r pos s :
  Re.search_from r pos s
  = match Re.run r pos s [] (fun pos' _ gs => Some (Re.MatchObject pos pos' gs)) with
    | Some m => Some m
    | None =>
        match s with
        | EmptyString => None
        | String _ s' => Re.search_from r (S pos) s'
        end
    end.
Proof. by destruct s. Qed.

(** The pattern is anchored: it matches at offset 0 or not at all. *)
Lemma search_from_Bol r pos s : Re.search_from (Re.Seq Re.Bol r) (S pos) s = None.
Proof.
  revert pos. induction s as [|c s IH]; intros pos; rewrite search_from_unfold; [done|].
  rewrite run_Seq. simpl. apply IH.
Qed.

Lemma search_BIDS_NAME name :
  Re.search BIDS_NAME name = Re.run (Re.Seq dir_part after_dir) 0 name [] found.
Proof.
  unfold Re.search. rewrite search_from_unfold, BIDS_NAME_parts, run_Seq.
  change (Re.run Re.Bol 0 name [] ?k) with (k 0 name (@nil (string * string))).
  cbv beta. fold found.
  destruct (Re.run _ 0 name [] found); [done|].
  destruct name; [done|]. apply search_from_Bol.
Qed.

Lemma has_char_append c a b : has_char c (a +:+ b) = has_char c a || has_char c b.
Proof.
  induction a as [|x a IH]; [done|].
  rewrite append_cons. simpl. by rewrite IH, orb_assoc.
Qed.

Lemma all_alnum_no_slash s : all_alnum s = true → has_char "/" s = false.
Proof.
  induction s as [|c s IH]; [done|]. simpl.
  intros [Hc Hs]%andb_true_iff. rewrite (IH Hs), orb_false_r.
  destruct (Ascii.eqb_spec c "/") as [->|]; [|done]. by vm_compute in Hc.
Qed.

(** Without a slash there is no directory to match. *)
Lemma star_dot_no_slash k fuel pos s gs :
  has_char "/" s = false →
  star_loop Re.Dot (fun pos' s' gs' => Re.run (Re.Lit "/") pos' s' gs' k) fuel pos s gs
  = None.
Proof.
  revert pos s. induction fuel as [|fuel IH]; intros pos s Hs.
  - simpl. destruct s as [|a s]; [done|]. simpl in Hs.
    apply orb_false_iff in Hs as [-> _]. done.
  - rewrite star_loop_S, run_Dot, run_Lit. destruct s as [|a s]; [done|].
    simpl in Hs. apply orb_false_iff in Hs as [Ha Hs]. rewrite Ha.
    destruct (Ascii.eqb a (ascii_of_nat 10)); [done|].
    assert ((pos <? S pos) = true) as -> by (apply Nat.ltb_lt; lia).
    by rewrite IH.
Qed.

Lemma run_dir_part_none pos s gs k :
  has_char "/" s = false → Re.run dir_part pos s gs k = k pos s gs.
Proof.
  intros Hs. unfold dir_part. rewrite run_Opt, run_Group, run_Seq, run_Star.
  by rewrite star_dot_no_slash.
Qed.

(** The directory that is matched ends at the last slash. *)
Lemma star_dot_last_slash k dir file fuel pos gs m :
  has_char (ascii_of_nat 10) dir = false → has_char "/" file = false →
  String.length dir + 1 ≤ fuel →
  k (pos + String.length dir + 1) file gs = Some m →
  star_loop Re.Dot (fun pos' s' gs' => Re.run (Re.Lit "/") pos' s' gs' k) fuel pos
    (dir +:+ "/" +:+ file) gs = Some m.
Proof.
  revert fuel pos. induction dir as [|c dir IH]; intros fuel pos Hdir Hfile Hfuel Hk.
  - destruct fuel as [|fuel]; [simpl in Hfuel; lia|].
    change ("" +:+ "/" +:+ file) with (String "/" file).
    rewrite star_loop_S, run_Dot.
    assert (Ascii.eqb "/" (ascii_of_nat 10) = false) as -> by reflexivity.
    assert ((pos <? S pos) = true) as -> by (apply Nat.ltb_lt; lia).
    rewrite star_dot_no_slash by done.
    rewrite run_Lit, Ascii.eqb_refl. rewrite <- Hk. f_equal. simpl. lia.
  - destruct fuel as [|fuel]; [simpl in Hfuel; lia|].
    simpl in Hdir. apply orb_false_iff in Hdir as [Hc Hdir].
    rewrite append_cons, star_loop_S, run_Dot, Hc.
    assert ((pos <? S pos) = true) as -> by (apply Nat.ltb_lt; lia).
    rewrite (IH fuel (S pos)); [done|done|done|simpl in Hfuel; lia|].
    rewrite <- Hk. f_equal. simpl. lia.
Qed.

Lemma run_dir_part_last_slash pos dir file gs k m :
  has_char (ascii_of_nat 10) dir = false → has_char "/" file = false →
  k (pos + String.length dir + 1) file gs = Some m →
  Re.run dir_part pos (dir +:+ "/" +:+ file) gs k = Some m.
Proof.
  intros Hdir Hfile Hk. unfold dir_part. rewrite run_Opt, run_Group, run_Seq, run_Star.
  rewrite (star_dot_last_slash _ dir file _ pos gs m); [done|done|done| |done].
  rewrite !length_append. simpl. lia.
Qed.

(** After the directory: the subject, the session when there is one, the
    task, and whatever follows. *)
Lemma run_after_dir_canonical sub ses task rest pos gs :
  is_label sub = true → opt_label ses = true → is_label task = true →
  starts_alnum rest = false →
  ∃ m,
    Re.run after_dir pos (canonical_name sub ses task rest) gs found = Some m
    ∧ Re.groupdict m "task_id" = Some ("task-" +:+ task).
Proof.
  intros Hsub Hses Htask Hrest.
  assert (∀ pos1 gs1,
            ∃ m, Re.run (Re.Seq (entity "task_id" "task-") after_task) pos1
                   ("_task-" +:+ task +:+ rest) gs1 found = Some m
                 ∧ Re.groupdict m "task_id" = Some ("task-" +:+ task)) as Htask_part.
  { intros pos1 gs1.
    destruct (run_after_task (pos1 + 1 + String.length "task-" + String.length task)
                rest (("task_id", "task-" +:+ task) :: gs1) found)
      as (m & Hm & Hgroups); [done|].
    exists m. split.
    - rewrite run_Seq.
      change ("_task-" +:+ task +:+ rest) with ("_" +:+ "task-" +:+ task +:+ rest).
      by apply run_entity_match.
    - rewrite Hgroups; [done|]. rewrite !elem_of_cons, elem_of_nil.
      intros [?|[?|[?|?]]]; done. }
  assert (∀ pos1 gs1,
            ∃ m, Re.run (Re.Seq (entity "session_id" "ses-")
                           (Re.Seq (entity "task_id" "task-") after_task)) pos1
                   match ses with
                   | Some x => "_ses-" +:+ x +:+ "_task-" +:+ task +:+ rest
                   | None => "_task-" +:+ task +:+ rest
                   end gs1 found = Some m
                 ∧ Re.groupdict m "task_id" = Some ("task-" +:+ task)) as Hses_part.
  { intros pos1 gs1. rewrite run_Seq. destruct ses as [x|].
    - destruct (Htask_part (pos1 + 1 + String.length "ses-" + String.length x)
                  (("session_id", "ses-" +:+ x) :: gs1)) as (m & Hm & Hgroup).
      exists m. split; [|done].
      change ("_ses-" +:+ x +:+ "_task-" +:+ task +:+ rest)
        with ("_" +:+ "ses-" +:+ x +:+ "_task-" +:+ task +:+ rest).
      by apply run_entity_match.
    - destruct (Htask_part pos1 gs1) as (m & Hm & Hgroup).
      exists m. split; [|done]. by rewrite run_entity_skip. }
  destruct (Hses_part (pos + String.length "sub-" + String.length sub)
              (("subject_id", "sub-" +:+ sub) :: gs)) as (m & Hm & Hgroup).
  exists m. split; [|done].
  unfold after_dir, canonical_name. rewrite run_Seq, run_Group, run_word.
  apply plus_alnum_max; [done|by destruct ses|].
  rewrite <- Hm. f_equal. do 2 f_equal.
  replace (pos + String.length "sub-" + String.length sub - pos)
    with (String.length ("sub-" +:+ sub)) by (rewrite length_append; lia).
  change ("sub-" +:+ sub +:+ ?t) with (("sub-" +:+ sub) +:+ t).
  apply take_append.
Qed.

Lemma canonical_name_no_slash sub ses task rest :
  is_label sub = true → opt_label ses = true → is_label task = true →
  has_char "/" rest = false →
  has_char "/" (canonical_name sub ses task rest) = false.
Proof.
  unfold is_label, opt_label, canonical_name.
  intros [Hsub _]%andb_true_iff Hses [Htask _]%andb_true_iff Hrest.
  rewrite !has_char_append, (all_alnum_no_slash _ Hsub). simpl.
  destruct ses as [x|].
  - unfold is_label in Hses. apply andb_true_iff in Hses as [Hx _].
    by rewrite !has_char_append, (all_alnum_no_slash _ Hx),
         (all_alnum_no_slash _ Htask), Hrest.
  - by rewrite !has_char_append, (all_alnum_no_slash _ Htask), Hrest.
Qed.

(** X1: a series named after its subject, an optional session and its
    task, in this order, is counted under its task label, whatever
    follows the label (as long as it is no further letter or digit), and
    whether the name stands alone or comes after a directory. *)
Theorem canonical_series_task (dir sub : string) (ses : option string)
    (task rest : string) :
  is_label sub = true → opt_label ses = true → is_label task = true →
  starts_alnum rest = false → has_char "/" rest = false →
  has_char (ascii_of_nat 10) dir = false →
  SubjectSummary.task_of (canonical_name sub ses task rest) = Ok task
  ∧ SubjectSummary.task_of (dir +:+ "/" +:+ canonical_name sub ses task rest) = Ok task.
Proof.
  intros Hsub Hses Htask Hrest Hslash Hdir.
  pose proof (canonical_name_no_slash _ _ _ _ Hsub Hses Htask Hslash) as Hfile.
  assert (∀ name m,
            Re.search BIDS_NAME name = Some m →
            Re.groupdict m "task_id" = Some ("task-" +:+ task) →
            SubjectSummary.task_of name = Ok task) as Hfound.
  { intros name m Hm Hgroup. unfold SubjectSummary.task_of.
    rewrite Hm. unfold mbind, res_bind. cbv beta iota. by rewrite Hgroup. }
  split.
  - destruct (run_after_dir_canonical sub ses task rest 0 [] Hsub Hses Htask Hrest)
      as (m & Hm & Hgroup).
    apply (Hfound _ m); [|done].
    by rewrite search_BIDS_NAME, run_Seq, run_dir_part_none.
  - destruct (run_after_dir_canonical sub ses task rest (0 + String.length dir + 1) []
                Hsub Hses Htask Hrest) as (m & Hm & Hgroup).
    apply (Hfound _ m); [|done].
    rewrite search_BIDS_NAME, run_Seq. by apply run_dir_part_last_slash.
Qed.

Lemma canonical_series_task_witness :
  SubjectSummary.task_of "/data/sub-01/ses-pre/func/sub-01_ses-pre_task-nback_run-2_bold.nii.gz"
  = Ok "nback".
Proof.
  apply (canonical_series_task "/data/sub-01/ses-pre/func" "01" (Some "pre")
           "nback" "_run-2_bold.nii.gz"); reflexivity.
Defined.

(** X2: a name without directory that does not start with [sub-] and a
    letter or digit is not matched at all: [AttributeError]. *)
Theorem series_without_subject (name : string) :
  has_char "/" name = false →
  (Py.startswith name "sub-" = false
   ∨ ∃ x, name = "sub-" +:+ x ∧ starts_alnum x = false) →
  Re.search BIDS_NAME name = None
  ∧ SubjectSummary.task_of name = Raise AttributeError.
Proof.
  intros Hslash Hname.
  assert (Re.search BIDS_NAME name = None) as Hnone.
  { rewrite search_BIDS_NAME, run_Seq, run_dir_part_none by done.
    unfold after_dir. rewrite run_Seq, run_Group.
    destruct Hname as [Hprefix|(x & -> & Hx)].
    - by apply run_word_fail.
    - rewrite run_word, run_Plus, run_alnum.
      destruct x as [|a x]; [done|]. simpl in Hx. by rewrite Hx. }
  split; [done|]. unfold SubjectSummary.task_of. by rewrite Hnone.
Qed.

Lemma series_without_subject_witness :
  SubjectSummary.task_of "task-rest_bold.nii.gz" = Raise AttributeError.
Proof.
  apply (series_without_subject "task-rest_bold.nii.gz"); [reflexivity|].
  left. reflexivity.
Defined.

Lemma run_after_dir_no_task sub ses rest pos :
  is_label sub = true → opt_label ses = true → starts_alnum rest = false →
  Py.startswith rest "_task-" = false →
  match ses with Some _ => true | None => negb (Py.startswith rest "_ses-") end = true →
  ∃ m,
    Re.run after_dir pos (subject_name sub ses rest) [] found = Some m
    ∧ Re.groupdict m "task_id" = None.
Proof.
  intros Hsub Hses Hrest Htask Hnoses.
  assert (∀ pos1 gs1,
            Re.group_lookup gs1 "task_id" = None →
            ∃ m, Re.run (Re.Seq (entity "task_id" "task-") after_task) pos1 rest gs1 found
                 = Some m
                 ∧ Re.groupdict m "task_id" = None) as Htask_part.
  { intros pos1 gs1 Hgs1.
    destruct (run_after_task pos1 rest gs1 found) as (m & Hm & Hgroups); [done|].
    exists m. split.
    - by rewrite run_Seq, run_entity_skip.
    - rewrite Hgroups; [done|]. rewrite !elem_of_cons, elem_of_nil.
      intros [?|[?|[?|?]]]; done. }
  assert (∃ m, Re.run (Re.Seq (entity "session_id" "ses-")
                         (Re.Seq (entity "task_id" "task-") after_task))
                 (pos + String.length "sub-" + String.length sub)
                 match ses with Some x => "_ses-" +:+ x +:+ rest | None => rest end
                 [("subject_id", "sub-" +:+ sub)] found = Some m
               ∧ Re.groupdict m "task_id" = None) as (m & Hm & Hgroup).
  { rewrite run_Seq. destruct ses as [x|].
    - destruct (Htask_part
                  (pos + String.length "sub-" + String.length sub + 1
                   + String.length "ses-" + String.length x)
                  [("session_id", "ses-" +:+ x); ("subject_id", "sub-" +:+ sub)])
        as (m & Hm & Hgroup); [done|].
      exists m. split; [|done].
      change ("_ses-" +:+ x +:+ rest) with ("_" +:+ "ses-" +:+ x +:+ rest).
      by apply run_entity_match.
    - destruct (Htask_part (pos + String.length "sub-" + String.length sub)
                  [("subject_id", "sub-" +:+ sub)]) as (m & Hm & Hgroup); [done|].
      exists m. split; [|done]. rewrite run_entity_skip; [done|].
      by apply negb_true_iff in Hnoses. }
  exists m. split; [|done].
  unfold after_dir, subject_name. rewrite run_Seq, run_Group, run_word.
  apply plus_alnum_max; [done|by destruct ses|].
  rewrite <- Hm. f_equal. do 2 f_equal.
  replace (pos + String.length "sub-" + String.length sub - pos)
    with (String.length ("sub-" +:+ sub)) by (rewrite length_append; lia).
  change ("sub-" +:+ sub +:+ ?t) with (("sub-" +:+ sub) +:+ t).
  apply take_append.
Qed.

(** X3: when what follows the subject (and the session, if any) does not
    start with [_task-], no task is found, also when a task entity comes
    later in the name: the name is matched and the slice of the missing
    group raises [TypeError]. *)
Theorem series_without_task (dir sub : string) (ses : option string) (rest : string) :
  is_label sub = true → opt_label ses = true → starts_alnum rest = false →
  Py.startswith rest "_task-" = false →
  match ses with Some _ => true | None => negb (Py.startswith rest "_ses-") end = true →
  has_char "/" rest = false → has_char (ascii_of_nat 10) dir = false →
  SubjectSummary.task_of (subject_name sub ses rest) = Raise TypeError
  ∧ SubjectSummary.task_of (dir +:+ "/" +:+ subject_name sub ses rest) = Raise TypeError.
Proof.
  intros Hsub Hses Hrest Htask Hnoses Hslash Hdir.
  assert (has_char "/" (subject_name sub ses rest) = false) as Hfile.
  { unfold is_label, opt_label, subject_name in *.
    apply andb_true_iff in Hsub as [Hsub _].
    rewrite !has_char_append, (all_alnum_no_slash _ Hsub). simpl.
    destruct ses as [x|]; [|done].
    unfold is_label in Hses. apply andb_true_iff in Hses as [Hx _].
    by rewrite !has_char_append, (all_alnum_no_slash _ Hx), Hslash. }
  assert (∀ name m,
            Re.search BIDS_NAME name = Some m → Re.groupdict m "task_id" = None →
            SubjectSummary.task_of name = Raise TypeError) as Hfound.
  { intros name m Hm Hgroup. unfold SubjectSummary.task_of.
    rewrite Hm. unfold mbind, res_bind. cbv beta iota. by rewrite Hgroup. }
  split.
  - destruct (run_after_dir_no_task sub ses rest 0 Hsub Hses Hrest Htask Hnoses)
      as (m & Hm & Hgroup).
    apply (Hfound _ m); [|done].
    by rewrite search_BIDS_NAME, run_Seq, run_dir_part_none.
  - destruct (run_after_dir_no_task sub ses rest (0 + String.length dir + 1)
                Hsub Hses Hrest Htask Hnoses) as (m & Hm & Hgroup).
    apply (Hfound _ m); [|done].
    rewrite search_BIDS_NAME, run_Seq. by apply run_dir_part_last_slash.
Qed.

Lemma series_without_task_witness :
  SubjectSummary.task_of "/data/sub-01/func/sub-01_acq-mb_task-rest_bold.nii.gz"
  = Raise TypeError.
Proof.
  apply (series_without_task "/data/sub-01/func" "01" None "_acq-mb_task-rest_bold.nii.gz");
    reflexivity.
Defined.

(** ** SubjectSummary: more on the functional series *)

Lemma first_file_Raise entry e :
  SubjectSummary.first_file entry = Raise e → e = IndexError.
Proof. destruct entry as [path|[|path rest]]; simpl; congruence. Qed.

(** X4: an entry of [bold] that is an empty list makes the rendering step
    raise [IndexError], whatever the other series are called: every entry
    is reduced to its first file before any name is parsed. *)
Theorem empty_file_list_raises `{Externals}
    (self : SummaryInterface.obj SubjectSummary.input_spec) (w : world)
    (status : string) (entries : list SubjectSummary.bold_entry) :
  SubjectSummary.freesurfer_status (SummaryInterface.inputs self) w = Ok status →
  SubjectSummary.bold (SummaryInterface.inputs self) = Defined entries →
  SubjectSummary.FileList [] ∈ entries →
  SubjectSummary._generate_segment self w = Raise IndexError.
Proof.
  intros Hst Hbold Hin.
  assert (SubjectSummary.bold_series (SummaryInterface.inputs self) = Raise IndexError)
    as Hfiles.
  { unfold SubjectSummary.bold_series. rewrite Hbold.
    pose proof (res_mapM_Raise SubjectSummary.first_file _ _ Hin eq_refl) as Hraised.
    destruct (res_mapM SubjectSummary.first_file entries) as [files|e] eqn:Hmap; [done|].
    apply res_mapM_Raise_inv in Hmap as (entry & _ & Hentry).
    by rewrite (first_file_Raise _ _ Hentry). }
  by eapply generate_segment_Raise_files.
Qed.

Lemma empty_file_list_raises_witness :
  SubjectSummary._generate_segment (H := example_externals)
    (example_subject Undefined (Defined "01")
       [SubjectSummary.OneFile "not a series name"; SubjectSummary.FileList []])
    example_world
  = Raise IndexError.
Proof.
  apply (empty_file_list_raises (H := example_externals) _ _ "Not run"
           [SubjectSummary.OneFile "not a series name"; SubjectSummary.FileList []]);
    [reflexivity|reflexivity|].
  right. left.
Defined.

Lemma sum_counts_insert (counts : gmap string nat) x :
  sum_list (map_to_list (<[x := S (default 0 (counts !! x))]> counts)).*2
  = S (sum_list (map_to_list counts).*2).
Proof.
  destruct (counts !! x) as [n|] eqn:Hx; simpl.
  - rewrite <- insert_delete_eq.
    rewrite map_to_list_insert by apply lookup_delete_eq.
    rewrite <- (map_to_list_delete counts x n Hx). simpl. done.
  - rewrite map_to_list_insert by done. simpl. done.
Qed.

Lemma sum_counts_foldl labels (acc : gmap string nat) :
  sum_list (map_to_list
              (foldl (fun counts x => <[x := S (default 0 (counts !! x))]> counts)
                 acc labels)).*2
  = sum_list (map_to_list acc).*2 + length labels.
Proof.
  revert acc. induction labels as [|x labels IH]; intros acc; simpl; [lia|].
  rewrite IH, sum_counts_insert. lia.
Qed.

(** X5: the numbers of runs in the list of tasks add up to the number of
    functional series. *)
Theorem task_counts_add_up (files labels : list string) :
  res_mapM SubjectSummary.task_of files = Ok labels →
  sum_list (sorted_items (Counter labels)).*2 = length files.
Proof.
  intros Hlabels. rewrite <- (res_mapM_length _ _ _ Hlabels).
  unfold sorted_items. rewrite merge_sort_Permutation.
  unfold Counter. rewrite sum_counts_foldl, map_to_list_empty. done.
Qed.

Lemma task_counts_add_up_witness :
  sum_list
    (sorted_items
       (Counter ["rest"; "nback"; "rest"])).*2
  = length ["sub-01_task-rest_run-1_bold.nii.gz"; "sub-01_task-nback_bold.nii.gz";
            "sub-01_task-rest_run-2_bold.nii.gz"].
Proof.
  apply (task_counts_add_up
           ["sub-01_task-rest_run-1_bold.nii.gz"; "sub-01_task-nback_bold.nii.gz";
            "sub-01_task-rest_run-2_bold.nii.gz"]).
  vm_compute. reflexivity.
Defined.

Lemma res_mapM_Permutation {A B} (f : A → res B) l l' bs :
  res_mapM f l = Ok bs → l ≡ₚ l' →
  ∃ bs', res_mapM f l' = Ok bs' ∧ bs ≡ₚ bs'.
Proof.
  intros Hbs Hperm. revert bs Hbs.
  induction Hperm as [|a l l' _ IH|a b l|l l' l'' _ IH1 _ IH2]; intros bs Hbs.
  - exists bs. by split.
  - simpl in *. destruct (f a) as [b|]; [|done]. simpl in *.
    destruct (res_mapM f l) as [bs0|] eqn:Hl; [|done].
    inversion Hbs; subst bs.
    destruct (IH bs0 eq_refl) as (bs' & -> & Hp). exists (b :: bs'). split; [done|].
    by constructor.
  - simpl in *. destruct (f b) as [fb|]; [|done]. simpl in *.
    destruct (f a) as [fa|]; [|done]. simpl in *.
    destruct (res_mapM f l) as [bs0|]; [|done]. simpl in *.
    inversion Hbs; subst bs. exists (fa :: fb :: bs0). split; [done|]. constructor.
  - destruct (IH1 bs Hbs) as (bs1 & Hbs1 & Hp1).
    destruct (IH2 bs1 Hbs1) as (bs2 & Hbs2 & Hp2).
    exists bs2. split; [done|]. by etrans.
Qed.

Lemma Counter_Permutation labels labels' :
  labels ≡ₚ labels' → Counter labels = Counter labels'.
Proof.
  intros Hperm. apply map_eq. intros x. rewrite !Counter_lookup.
  unfold occurrences. by rewrite Hperm.
Qed.

(** X6: the segment does not depend on the order of the functional
    series: inputs that differ by a permutation of [bold] render the
    same text. *)
Theorem segment_ignores_series_order `{Externals}
    (inp : SubjectSummary.input_spec) (entries entries' : list SubjectSummary.bold_entry)
    (results results' : gmap string string) (w : world) (html : string) :
  SubjectSummary.bold inp = Defined entries →
  entries ≡ₚ entries' →
  SubjectSummary._generate_segment (SummaryInterface.Obj inp results) w = Ok html →
  SubjectSummary._generate_segment
    (SummaryInterface.Obj
       (SubjectSummary.Inputs (SubjectSummary.t1w inp) (SubjectSummary.t2w inp)
          (SubjectSummary.subjects_dir inp) (SubjectSummary.subject_id inp)
          (Defined entries') (SubjectSummary.std_spaces inp)
          (SubjectSummary.nstd_spaces inp))
       results') w
  = Ok html.
Proof.
  intros Hbold Hperm Hseg.
  destruct (generate_segment_inv _ _ _ Hseg) as (status & files & labels & Hst & Hf & Hl).
  rewrite (generate_segment_Ok _ _ _ _ _ Hst Hf Hl) in Hseg. inversion Hseg; subst html.
  simpl in Hst, Hf. unfold SubjectSummary.bold_series in Hf. rewrite Hbold in Hf.
  destruct (res_mapM_Permutation _ _ _ _ Hf Hperm) as (files' & Hf' & Hpf).
  destruct (res_mapM_Permutation _ _ _ _ Hl Hpf) as (labels' & Hl' & Hpl).
  rewrite (generate_segment_Ok _ w status files' labels'); [|done|done|done].
  unfold subject_segment. simpl.
  by rewrite (Counter_Permutation _ _ Hpl), Hpf.
Qed.

Lemma segment_ignores_series_order_witness :
  SubjectSummary._generate_segment (H := example_externals)
    (example_subject Undefined (Defined "01")
       [SubjectSummary.OneFile "sub-01_task-rest_bold.nii.gz";
        SubjectSummary.OneFile "sub-01_task-nback_bold.nii.gz"])
    example_world
  = Ok (subject_html "01" "1" "" "2" (tasks_html [("nback", 1); ("rest", 1)])
          "MNI152NLin6Asym" "" "Not run").
Proof.
  apply (segment_ignores_series_order (H := example_externals)
           (SummaryInterface.inputs
              (example_subject Undefined (Defined "01")
                 [SubjectSummary.OneFile "sub-01_task-nback_bold.nii.gz";
                  SubjectSummary.OneFile "sub-01_task-rest_bold.nii.gz"]))
           [SubjectSummary.OneFile "sub-01_task-nback_bold.nii.gz";
            SubjectSummary.OneFile "sub-01_task-rest_bold.nii.gz"]
           [SubjectSummary.OneFile "sub-01_task-rest_bold.nii.gz";
            SubjectSummary.OneFile "sub-01_task-nback_bold.nii.gz"]
           ∅ ∅ example_world).
  - reflexivity.
  - apply perm_swap.
  - vm_compute. reflexivity.
Defined.

(** ** MELODICRPT: the report of a decomposition that converged *)

Lemma isabs_cons s : Posix.isabs (String "/" s) = true.
Proof. reflexivity. Qed.

Lemma isabs_inv p : Posix.isabs p = true → ∃ s, p = String "/" s.
Proof.
  destruct p as [|c p]; [done|]. unfold Posix.isabs. rewrite startswith_cons.
  rewrite (Ascii.eqb_sym "/" c).
  destruct (Ascii.eqb_spec c "/") as [->|]; [|done]. by exists p.
Qed.

Lemma isabs_normpath p : Posix.isabs p = true → Posix.isabs (Posix.normpath p) = true.
Proof.
  intros (s & ->)%isabs_inv. unfold Posix.normpath.
  assert (String.eqb (String "/" s) "" = false) as -> by reflexivity.
  assert (Py.startswith (String "/" s) "/" = true) as -> by reflexivity.
  destruct (Py.startswith (String "/" s) "//" && negb (Py.startswith (String "/" s) "///"));
    reflexivity.
Qed.

Lemma isabs_join a b : Posix.isabs a = true → Posix.isabs (Posix.join a b) = true.
Proof.
  intros (s & ->)%isabs_inv. unfold Posix.join.
  destruct (Py.startswith b "/") eqn:Hb; [exact Hb|].
  destruct (String.eqb (String "/" s) "" || Posix.ends_with_sep (String "/" s));
    reflexivity.
Qed.

Lemma isabs_abspath getcwd p :
  Posix.isabs getcwd = true → Posix.isabs (Posix.abspath getcwd p) = true.
Proof.
  intros Hcwd. unfold Posix.abspath. apply isabs_normpath.
  destruct (Posix.isabs p) eqn:Hp; [done|]. by apply isabs_join.
Qed.

Lemma isabs_resolved_out_report getcwd cwd out_report :
  Posix.isabs getcwd = true →
  Posix.isabs (resolved_out_report getcwd cwd out_report) = true.
Proof.
  intros Hcwd. unfold resolved_out_report.
  destruct (Posix.isabs out_report) eqn:Hout; [done|]. by apply isabs_abspath.
Qed.

Lemma isabs_replace_svg p :
  Posix.isabs p = true → Posix.isabs (Py.replace p ".svg" ".html") = true.
Proof. intros (s & ->)%isabs_inv. reflexivity. Qed.

Section melodic_more.
Context `{Externals}.
Import MELODICRPT.

(** X7: when [melodic_mix] is there, the hook writes nothing itself: it
    calls the plotting routine once, with the resolved directory, the
    first input file, the repetition time, the resolved report path
    (which keeps its extension), the compression flag and the mask, and
    its outcome is that of the plotting routine; without an input file
    ([in_files] is then the undefined trait) the hook raises [TypeError]
    before any call. *)
Theorem melodic_report_plotted (self : obj) (rt rt' : runtime) (w : world)
    (fs' : filesystem) :
  generate_report self = true →
  MELODIC_post_run_hook rt (fs w) = (Ok rt', fs') →
  let melodic_dir :=
    resolved_melodic_dir (getcwd w) (cwd rt') (mi_out_dir (inputs self)) in
  path_exists fs' (Posix.join melodic_dir "melodic_mix") = true →
  let out_report :=
    resolved_out_report (getcwd w) (cwd rt') (mi_out_report (inputs self)) in
  let self' := Obj (inputs self) true (Some out_report) (Some melodic_dir) in
  let w1 := with_events (with_fs w fs') [LogInfo "Generating report for MELODIC."] in
  match mi_in_files (inputs self) with
  | [] => _post_run_hook rt (self, w) = (Raise TypeError, (self', w1))
  | in_file :: _ =>
      let args :=
        PlotArgs (Defined melodic_dir) in_file (Some (mi_tr_sec (inputs self)))
          out_report (mi_compress_report (inputs self))
          (mi_report_mask (inputs self)) None in
      _post_run_hook rt (self, w)
      = (let '(r, fs'') := plot_melodic_components args fs' in
         (match r with Ok _ => Ok rt' | Raise e => Raise e end,
          (self', with_fs (with_events w1 [PlotCalled args]) fs'')))
  end
  ∧ _list_outputs self'
    = match MELODIC_list_outputs (inputs self) with
      | Ok listed => Ok (<["out_report" := out_report]> listed)
      | Raise NotImplementedError => Ok {["out_report" := out_report]}
      | Raise e => Raise e
      end.
Proof.
  intros Hgen Hbase melodic_dir Hmix out_report self' w1. split.
  - rewrite melodic_post_run_hook_cases, Hbase, Hgen. simpl.
    fold melodic_dir out_report. rewrite Hmix. simpl.
    rewrite melodic_generate_report_cases. simpl.
    destruct (mi_in_files (inputs self)) as [|in_file rest]; [done|].
    fold self' w1. by destruct (plot_melodic_components _ fs') as [[[]|e] fs''].
  - unfold _list_outputs. simpl.
    destruct (MELODIC_list_outputs (inputs self)) as [listed|[]]; done.
Qed.

(** X8: after the hook of a fresh instance, [_out_report] is set exactly
    when a report was asked for and the hook of the tool returned, also
    when the notice could not be written or the plotting routine raised;
    and when the current directory of the process is absolute, the path
    it is set to is absolute. *)
Theorem melodic_out_report_set (self : obj) (rt : runtime) (w : world)
    (outcome : res runtime) (self' : obj) (w' : world) :
  _out_report self = None →
  _post_run_hook rt (self, w) = (outcome, (self', w')) →
  (is_Some (_out_report self')
   ↔ generate_report self = true
     ∧ ∃ rt', (MELODIC_post_run_hook rt (fs w)).1 = Ok rt')
  ∧ (Posix.isabs (getcwd w) = true →
     ∀ path, _out_report self' = Some path → Posix.isabs path = true).
Proof.
  intros Hnone. rewrite melodic_post_run_hook_cases.
  destruct (MELODIC_post_run_hook rt (fs w)) as [[rt'|e] fs'] eqn:Hbase; simpl.
  2:{ intros [= <- <- <-]. rewrite Hnone. split.
      - split; [by intros []|]. by intros (_ & rt' & ?).
      - done. }
  destruct (generate_report self) eqn:Hgen; simpl.
  2:{ intros [= <- <- <-]. rewrite Hnone. split.
      - split; [by intros []|]. by intros [? _].
      - done. }
  destruct (path_exists fs' _); simpl.
  - rewrite melodic_generate_report_cases. simpl.
    destruct (mi_in_files (inputs self)) as [|in_file rest].
    + intros [= <- <- <-]. simpl. split.
      * split; [intros _; split; [done|by exists rt']|by eexists].
      * intros Hcwd path [= <-]. by apply isabs_resolved_out_report.
    + destruct (plot_melodic_components _ fs') as [[[]|e] fs''];
        intros [= <- <- <-]; simpl; (split;
          [split; [intros _; split; [done|by exists rt']|by eexists]
          |intros Hcwd path [= <-]; by apply isabs_resolved_out_report]).
  - destruct (writable fs' _); intros [= <- <- <-]; simpl; (split;
      [split; [intros _; split; [done|by exists rt']|by eexists]
      |intros Hcwd path [= <-];
       by apply isabs_replace_svg, isabs_resolved_out_report]).
Qed.

End melodic_more.

Lemma melodic_report_plotted_witness :
  MELODICRPT._post_run_hook (H := example_externals) example_runtime
    (MELODICRPT.__init__ true (example_melodic "melodic_reportlet.svg"),
     World (FileSystem {["/work/melodic_mix" := "1 2 3"]} (dirs example_fs)
              (writable example_fs)) "/work" example_time [])
  = (Ok example_runtime,
     (MELODICRPT.Obj (example_melodic "melodic_reportlet.svg") true
        (Some "/work/melodic_reportlet.svg") (Some "/work"),
      World
        (FileSystem {["/work/melodic_mix" := "1 2 3";
                      "/work/melodic_reportlet.svg" := "<svg></svg>"]}
           (dirs example_fs) (writable example_fs))
        "/work" example_time
        [LogInfo "Generating report for MELODIC.";
         PlotCalled
           (PlotArgs (Defined "/work") "/data/sub-01_task-rest_bold.nii.gz"
              (Some (Defined (Float 2 0))) "/work/melodic_reportlet.svg"
              CompressAuto Undefined None)])).
Proof.
  destruct (melodic_report_plotted (H := example_externals)
              (MELODICRPT.__init__ true (example_melodic "melodic_reportlet.svg"))
              example_runtime example_runtime
              (World (FileSystem {["/work/melodic_mix" := "1 2 3"]} (dirs example_fs)
                        (writable example_fs)) "/work" example_time [])
              (FileSystem {["/work/melodic_mix" := "1 2 3"]} (dirs example_fs)
                 (writable example_fs)))
    as [Hhook _]; [reflexivity|reflexivity|vm_compute; reflexivity|].
  refine (eq_trans Hhook _). vm_compute. reflexivity.
Defined.

Lemma melodic_out_report_set_witness :
  Posix.isabs "/work/melodic_reportlet.html" = true.
Proof.
  destruct (melodic_out_report_set (H := example_externals)
              (MELODICRPT.__init__ true (example_melodic "melodic_reportlet.svg"))
              example_runtime example_world (Ok example_runtime)
              (MELODICRPT.Obj (example_melodic "melodic_reportlet.svg") true
                 (Some "/work/melodic_reportlet.html") (Some "/work"))
              (after_write
                 (with_events (with_events (with_fs example_world example_fs)
                                 [LogInfo "Generating report for MELODIC."])
                    [LogWarning "MELODIC outputs not found, assuming it didn't converge."])
                 "/work/melodic_reportlet.html" MELODICRPT.SNIPPET))
    as [_ Habs]; [reflexivity|vm_compute; reflexivity|].
  apply Habs; reflexivity.
Defined.

(** ** ICAAROMARPT: without a report, and when the outputs cannot be read *)

Section aroma_more.
Context `{Externals}.
Import ICAAROMARPT.

(** X9: with [generate_report=False] the hook still collects the outputs
    of the tool, keeps the path of the classification file and logs
    [Generating report for ICA AROMA], but it never calls the plotting
    routine and leaves [_out_report] unset; its outcome is that of the
    hook of the tool. *)
Theorem aroma_without_report (kwargs : ICA_AROMA_inputs) (rt : runtime) (w : world)
    (outputs : ICA_AROMA_outputs) (out_dir : string) :
  ICA_AROMA_aggregate_outputs kwargs rt (fs w) = Ok outputs →
  ao_out_dir outputs = Defined out_dir →
  _post_run_hook rt (__init__ false kwargs, w)
  = (let '(outcome, fs') := ICA_AROMA_post_run_hook rt (fs w) in
     (outcome,
      (Obj kwargs false None (Some (Posix.join out_dir "classified_motion_ICs.txt")),
       with_fs
         (with_events w [OutputsAggregated; LogInfo "Generating report for ICA AROMA"])
         fs'))).
Proof.
  intros Hagg Hdir.
  unfold _post_run_hook, ReportCapableInterface_post_run_hook,
    set_noise_components_file, set_out_report, __init__.
  run_M. simpl. rewrite Hagg. simpl. rewrite Hdir. simpl.
  unfold with_events, with_fs. simpl. rewrite <- app_assoc. simpl.
  by destruct (ICA_AROMA_post_run_hook rt (fs w)) as [[rt'|e] fs'].
Qed.

(** X10: when the outputs of the tool cannot be collected, the hook
    raises the same exception and does nothing else; when they carry no
    [out_dir], it raises [TypeError]; in both cases nothing is logged,
    the hook of the tool is not run and the plotting routine is not
    called. *)
Theorem aroma_outputs_unreadable (self : obj) (rt : runtime) (w : world) :
  match ICA_AROMA_aggregate_outputs (inputs self) rt (fs w) with
  | Raise e => _post_run_hook rt (self, w) = (Raise e, (self, w))
  | Ok outputs =>
      ao_out_dir outputs = Undefined →
      _post_run_hook rt (self, w)
      = (Raise TypeError, (self, with_events w [OutputsAggregated]))
  end.
Proof.
  unfold _post_run_hook. run_M. simpl.
  destruct (ICA_AROMA_aggregate_outputs (inputs self) rt (fs w)) as [outputs|e]; [|done].
  simpl. by intros ->.
Qed.

End aroma_more.

Lemma aroma_without_report_witness :
  ICAAROMARPT._post_run_hook (H := example_externals) example_runtime
    (ICAAROMARPT.__init__ false example_aroma, example_world)
  = (Ok example_runtime,
     (ICAAROMARPT.Obj example_aroma false None
        (Some "/work/out/classified_motion_ICs.txt"),
      World example_fs "/work" example_time
        [OutputsAggregated; LogInfo "Generating report for ICA AROMA"])).
Proof.
  refine (eq_trans
            (aroma_without_report (H := example_externals) example_aroma
               example_runtime example_world
               (ICAAROMAOutputs (Defined "/work/out") ∅) "/work/out" eq_refl eq_refl) _).
  vm_compute. reflexivity.
Defined.

(** ** AboutSummary: running again *)

(** X11: running [AboutSummary] a second time, at a later time of the
    clock, overwrites the report: the outcome and the state are those of
    a single run at the later time. *)
Theorem about_run_again
    (self self1 : SummaryInterface.obj AboutSummary.input_spec) (w w1 : world)
    (rt : runtime) (t : struct_time) :
  SummaryInterface._run_interface rt (self, w) = (Ok rt, (self1, w1)) →
  SummaryInterface._run_interface rt (self1, at_time w1 t)
  = SummaryInterface._run_interface rt (self, at_time w t).
Proof.
  rewrite !run_interface_cases.
  change (@SummaryInterface._generate_segment _ AboutSummary.segment)
    with AboutSummary._generate_segment.
  unfold AboutSummary._generate_segment.
  rewrite !format_ABOUT_TEMPLATE. simpl.
  destruct (writable (fs w) (Posix.join (cwd rt) "report.html")) eqn:Hw; [|done].
  intros [= <- <-]. simpl. rewrite Hw.
  unfold SummaryInterface.set_result, after_write, at_time. simpl.
  by rewrite !insert_insert_eq.
Qed.

Lemma about_run_again_witness :
  ∃ self1 w1,
    SummaryInterface._run_interface example_runtime
      (self1, at_time w1 (StructTime 2024 3 8 10 0 0 0))
    = (Ok example_runtime,
       (self1,
        after_write (at_time example_world (StructTime 2024 3 8 10 0 0 0))
          "/work/report.html"
          (about_html "24.0.1" "fmripost-aroma" "2024-03-08 10:00:00 +0000"))).
Proof.
  eexists _, _.
  refine (eq_trans
            (about_run_again
               (SummaryInterface.Obj
                  (AboutSummary.Inputs (Defined "24.0.1") (Defined "fmripost-aroma")) ∅)
               _ example_world _ example_runtime (StructTime 2024 3 8 10 0 0 0) _) _).
  - vm_compute. reflexivity.
  - vm_compute. reflexivity.
Defined.
